(** * us-time-backend: the assessment scoring function and the record store

    A shallow embedding of the two HTTP surfaces of the repository,
    [src/app.py] (module [Simple]) and [src/migration/app.py] (module [Api]),
    over the four tables declared in [src/models.py].

    Modelling conventions.
    - A Python [str] is the [string] of the bytes of its UTF-8 encoding;
      [str.lower] is written out on the letters A-Z.  Python also lowers
      letters outside ASCII, none of which becomes one of the letters y, e,
      s, so the comparison with ["yes"] is the same.
    - A table is the list of its rows in row order; [query.filter(p).first()]
      is [find p], [.all()] is [filter p], [.count()] is [length].
    - The store assigns an integer primary key one above the largest key of
      the table (1 on an empty table) and refuses a commit that would break a
      [unique=True] column; the refused request ends as an uncaught exception
      (a 500 response) and the session is closed without a write.
    - Integers are [Z]; the driver of the store binds the signed 64-bit
      ones only ([sqlite_integer]).  The [created_at] columns are filled by
      the store's clock, no handler reads them, and they are left out of the
      rows.
    - [uuid.uuid4()] is an input of the handler that calls it.
    - [read_root], [root] and [health_check] touch no table and are not
      modelled; [search_disorders] writes nothing and is not among the
      requests that lead from one store to the next. *)

From Stdlib Require Import ZArith List String Ascii Bool Lia.
From Stdlib Require Import Permutation Sorted Mergesort Orders.
Import ListNotations.

Open Scope string_scope.
Open Scope Z_scope.

(** ** Python strings *)

Definition lower_char (c : ascii) : ascii :=
  let n := N_of_ascii c in
  if ((65 <=? n) && (n <=? 90))%N then ascii_of_N (n + 32) else c.

(** [str.lower()] *)
Fixpoint lower (s : string) : string :=
  match s with
  | EmptyString => EmptyString
  | String c s' => String (lower_char c) (lower s')
  end.

(** [sum(...)] of a sequence of integers: starts at 0 and adds from the left. *)
Definition sum (l : list Z) : Z := fold_left Z.add l 0.

(** ** The scoring function ([src/migration/app.py]) *)

(** The dict returned by [calculate_assessment_result], by its four keys. *)
Module ResultData.
Record t := mk {
  result : string;
  severity : string;
  severity_score : Z;
  remedies : list string
}.
End ResultData.

(** [sum(1 for answer in answers if answer.lower() == "yes")] *)
Definition yes_count (answers : list string) : Z :=
  sum (map (fun _ => 1) (filter (fun answer => lower answer =? "yes")%string answers)).

Definition calculate_assessment_result (answers : list string) : ResultData.t :=
  let yes_count := yes_count answers in
  if yes_count >=? 4 then
    {| ResultData.result := "Based on your responses, you may be experiencing significant symptoms. Professional support is recommended.";
       ResultData.severity := "high";
       ResultData.severity_score := yes_count;
       ResultData.remedies := [
         "Consult with a mental health professional";
         "Consider therapy or counseling";
         "Practice daily self-care routines";
         "Reach out to support networks";
         "Consider medication evaluation with a doctor"
       ] |}
  else if yes_count >=? 2 then
    {| ResultData.result := "You're showing some symptoms that may benefit from attention and self-care.";
       ResultData.severity := "medium";
       ResultData.severity_score := yes_count;
       ResultData.remedies := [
         "Practice mindfulness and meditation";
         "Maintain a consistent daily routine";
         "Engage in regular physical activity";
         "Connect with friends and family";
         "Monitor your symptoms over time"
       ] |}
  else
    {| ResultData.result := "Your responses suggest you're managing well. Continue healthy habits.";
       ResultData.severity := "low";
       ResultData.severity_score := yes_count;
       ResultData.remedies := [
         "Continue with your current healthy routines";
         "Stay connected with your support system";
         "Practice stress management techniques";
         "Regular mental health check-ins";
         "Help others who may be struggling"
       ] |}.

(** ** The tables ([src/models.py]) *)

Module Disorder.
Record t := mk {
  id : Z;
  name : string;                (* unique=True, nullable=False *)
  description : string;
  symptoms : option string
}.
End Disorder.

Module Remedy.
Record t := mk {
  id : Z;
  disorder_id : Z;              (* ForeignKey("disorders.id") *)
  title : string;
  description : string;
  category : option string
}.
End Remedy.

(** The JSON column [Assessment.answers]: [src/app.py] stores a string,
    [src/migration/app.py] a list of strings. *)
Inductive Json :=
| JsonStr (s : string)
| JsonList (l : list string).

Module Assessment.
Record t := mk {
  id : Z;
  session_id : string;          (* unique=True; every writer supplies a str *)
  answers : Json;
  result : string;
  severity_score : Z;
  suggested_disorder_ids : option (list Z)
}.
End Assessment.

Module Question.
Record t := mk {
  id : Z;
  text : string;
  category : option string;
  weight : Z;                   (* default=1 *)
  order_index : Z;              (* default=0 *)
  is_active : Z                 (* default=1; 1 = active, 0 = inactive *)
}.
End Question.

Record Store := mkStore {
  disorders : list Disorder.t;
  remedies : list Remedy.t;
  assessments : list Assessment.t;
  questions : list Question.t
}.

(** The store after [Base.metadata.create_all] on a new database. *)
Definition empty_store : Store :=
  {| disorders := []; remedies := []; assessments := []; questions := [] |}.

(** ** The session: what a commit writes *)

(** The integers the driver of the store can bind as a parameter of a
    statement: the signed 64-bit ones.  Binding any other raises OverflowError
    before the statement runs, the request ends as an uncaught exception and
    nothing is written.  No key and no integer column of a stored row is
    outside that range, so a lookup by id that finds a row was bound; the
    handlers below answer the exception when the id finds no row and cannot
    be bound. *)
Definition sqlite_integer (z : Z) : bool := (- 2 ^ 63 <=? z) && (z <? 2 ^ 63).

(** The key the store gives a new row of a table whose keys are [ids]. *)
Definition next_id (ids : list Z) : Z := fold_right Z.max 0 ids + 1.

(** [session.add(Disorder(...))] and the flush or commit that writes it: the
    new row with its key, and the store; [None] is the IntegrityError of the
    unique [name] column. *)
Definition add_disorder (name description : string) (symptoms : option string)
    (db : Store) : option (Disorder.t * Store) :=
  if existsb (fun d => Disorder.name d =? name)%string (disorders db) then None
  else
    let row := {| Disorder.id := next_id (map Disorder.id (disorders db));
                  Disorder.name := name;
                  Disorder.description := description;
                  Disorder.symptoms := symptoms |} in
    Some (row, {| disorders := disorders db ++ [row];
                  remedies := remedies db;
                  assessments := assessments db;
                  questions := questions db |}).

Definition add_remedy (disorder_id : Z) (title description : string)
    (category : option string) (db : Store) : Store :=
  let row := {| Remedy.id := next_id (map Remedy.id (remedies db));
                Remedy.disorder_id := disorder_id;
                Remedy.title := title;
                Remedy.description := description;
                Remedy.category := category |} in
  {| disorders := disorders db;
     remedies := remedies db ++ [row];
     assessments := assessments db;
     questions := questions db |}.

(** [is_active] is not given by any caller and takes its default, 1. *)
Definition add_question (text : string) (category : option string)
    (weight order_index : Z) (db : Store) : Store :=
  let row := {| Question.id := next_id (map Question.id (questions db));
                Question.text := text;
                Question.category := category;
                Question.weight := weight;
                Question.order_index := order_index;
                Question.is_active := 1 |} in
  {| disorders := disorders db;
     remedies := remedies db;
     assessments := assessments db;
     questions := questions db ++ [row] |}.

(** [None] is the IntegrityError of the unique [session_id] column. *)
Definition add_assessment (session_id : string) (answers : Json) (result : string)
    (severity_score : Z) (suggested_disorder_ids : option (list Z))
    (db : Store) : option (Assessment.t * Store) :=
  if existsb (fun a => Assessment.session_id a =? session_id)%string (assessments db)
  then None
  else
    let row := {| Assessment.id := next_id (map Assessment.id (assessments db));
                  Assessment.session_id := session_id;
                  Assessment.answers := answers;
                  Assessment.result := result;
                  Assessment.severity_score := severity_score;
                  Assessment.suggested_disorder_ids := suggested_disorder_ids |} in
    Some (row, {| disorders := disorders db;
                  remedies := remedies db;
                  assessments := assessments db ++ [row];
                  questions := questions db |}).

(** The commit after the three attributes of the loaded row [existing] were
    assigned: an UPDATE of the row with its key; [None] when another row
    holds the new name. *)
Definition set_disorder (existing : Disorder.t) (name description : string)
    (symptoms : option string) (db : Store) : option Store :=
  let pk := Disorder.id existing in
  if existsb (fun d => negb (Disorder.id d =? pk) && (Disorder.name d =? name)%string)
       (disorders db)
  then None
  else
    Some {| disorders :=
              map (fun d => if Disorder.id d =? pk
                            then {| Disorder.id := Disorder.id d;
                                    Disorder.name := name;
                                    Disorder.description := description;
                                    Disorder.symptoms := symptoms |}
                            else d) (disorders db);
            remedies := remedies db;
            assessments := assessments db;
            questions := questions db |}.

(** The same for the five attributes [update_assessment] assigns. *)
Definition set_assessment (existing : Assessment.t) (session_id : string)
    (answers : Json) (result : string) (severity_score : Z)
    (suggested_disorder_ids : option (list Z)) (db : Store) : option Store :=
  let pk := Assessment.id existing in
  if existsb (fun a => negb (Assessment.id a =? pk) &&
                       (Assessment.session_id a =? session_id)%string)
       (assessments db)
  then None
  else
    Some {| disorders := disorders db;
            remedies := remedies db;
            assessments :=
              map (fun a => if Assessment.id a =? pk
                            then {| Assessment.id := Assessment.id a;
                                    Assessment.session_id := session_id;
                                    Assessment.answers := answers;
                                    Assessment.result := result;
                                    Assessment.severity_score := severity_score;
                                    Assessment.suggested_disorder_ids :=
                                      suggested_disorder_ids |}
                            else a) (assessments db);
            questions := questions db |}.

(** [session.delete(disorder); session.commit()].  The relationship
    [Disorder.remedies] has [cascade="all, delete"]: the session loads the
    remedies of the disorder and deletes each of them by its key, then the
    disorder by its key. *)
Definition delete_disorder_row (disorder : Disorder.t) (db : Store) : Store :=
  let loaded :=
    filter (fun r => Remedy.disorder_id r =? Disorder.id disorder) (remedies db) in
  {| disorders :=
       filter (fun d => negb (Disorder.id d =? Disorder.id disorder)) (disorders db);
     remedies :=
       filter (fun r => negb (existsb (fun r' => Remedy.id r =? Remedy.id r') loaded))
         (remedies db);
     assessments := assessments db;
     questions := questions db |}.

Definition delete_assessment_row (assessment : Assessment.t) (db : Store) : Store :=
  {| disorders := disorders db;
     remedies := remedies db;
     assessments :=
       filter (fun a => negb (Assessment.id a =? Assessment.id assessment))
         (assessments db);
     questions := questions db |}.

(** [.order_by(Question.order_index)]: rows by ascending [order_index].  The
    order among rows of one [order_index] is the store's; the sort below
    fixes one, and no statement depends on which. *)
Module QuestionOrder <: TotalLeBool.
Definition t := Question.t.
Definition leb (q1 q2 : t) : bool := Question.order_index q1 <=? Question.order_index q2.
Lemma leb_total : forall q1 q2, leb q1 q2 = true \/ leb q2 q1 = true.
Proof. intros q1 q2. unfold leb. rewrite !Z.leb_le. lia. Qed.
End QuestionOrder.

Module QuestionSort := Sort QuestionOrder.

(** ** Pattern matching in the store *)

(** The store keeps a string as the bytes of its UTF-8 encoding, and its LIKE
    reads both operands as C strings: up to the first zero byte. *)
Fixpoint c_string (s : string) : string :=
  match s with
  | EmptyString => EmptyString
  | String b s' => if (b =? zero)%char then EmptyString else String b (c_string s')
  end.

(** The value a lead byte, 192 to 255, starts a character with. *)
Definition utf8_lead (b : N) : N :=
  (if b <? 224 then N.land b 31
   else if b <? 240 then N.land b 15
   else if b <? 248 then N.land b 7
   else if b <? 252 then N.land b 3
   else if b <? 254 then N.land b 1
   else 0)%N.

(** A character read from more than one byte that is below 128, a surrogate,
    or 0xFFFE or 0xFFFF is read as 0xFFFD. *)
Definition utf8_replace (c : N) : N :=
  (if (c <? 128) || (N.land c 4294965248 =? 55296) || (N.land c 4294967294 =? 65534)
   then 65533 else c)%N.

(** The characters the store reads from the bytes [s]: a byte below 192 is a
    character; a lead byte takes every continuation byte (128 to 191) that
    follows it, six bits each, in a 32-bit unsigned integer.  [pending] is
    the character being read. *)
Fixpoint utf8_chars (pending : option N) (s : string) : list N :=
  match s with
  | EmptyString =>
      match pending with Some c => [utf8_replace c] | None => [] end
  | String b s' =>
      let v := N_of_ascii b in
      match pending with
      | Some c =>
          if (N.land v 192 =? 128)%N
          then utf8_chars (Some ((N.shiftl c 6 + N.land v 63) mod 2 ^ 32)%N) s'
          else
            utf8_replace c ::
            (if (v <? 192)%N then v :: utf8_chars None s'
             else utf8_chars (Some (utf8_lead v)) s')
      | None =>
          if (v <? 192)%N then v :: utf8_chars None s'
          else utf8_chars (Some (utf8_lead v)) s'
      end
  end.

(** The characters of an operand of LIKE. *)
Definition sql_chars (s : string) : list N := utf8_chars None (c_string s).

(** Two characters are the same for LIKE when they are equal or are the same
    ASCII letter in either case. *)
Definition like_char_eq (c d : N) : bool :=
  let to_lower (x : N) := (if (65 <=? x) && (x <=? 90) then x + 32 else x)%N in
  ((c =? d) || ((c <? 128) && (d <? 128) && (to_lower c =? to_lower d)))%N.

(** LIKE on characters: in the pattern 37, the percent sign, stands for any
    run of characters, the empty one included, 95, the underscore, for any
    one character, and every other character for itself; there is no escape
    character. *)
Fixpoint like_chars (pattern : list N) : list N -> bool :=
  match pattern with
  | [] => fun text => match text with [] => true | _ :: _ => false end
  | c :: pattern' =>
      if (c =? 37)%N then
        fix skip (text : list N) : bool :=
          like_chars pattern' text ||
          match text with [] => false | _ :: text' => skip text' end
      else
        fun text =>
          match text with
          | [] => false
          | d :: text' => ((c =? 95)%N || like_char_eq c d) && like_chars pattern' text'
          end
  end.

(** [text LIKE pattern]. *)
Definition like (pattern text : string) : bool :=
  like_chars (sql_chars pattern) (sql_chars text).

(** [column.ilike(pattern)], which the store evaluates as
    [lower(column) LIKE lower(pattern)]; its [lower] is that of the letters
    A-Z. *)
Definition ilike (column pattern : string) : bool := like (lower pattern) (lower column).

(** The longest pattern, in bytes, the store's LIKE accepts; on a longer one
    it fails with "LIKE or GLOB pattern too complex" at the first row it is
    evaluated on. *)
Definition like_pattern_limit : Z := 50000.

(** ** What a handler returns *)

Inductive Response (A : Type) : Type :=
| Ok (body : A)                                       (* status 200 *)
| HTTPException (status_code : Z) (detail : string)   (* raise HTTPException(...) *)
| InternalServerError.                                (* an exception nobody catches *)

Arguments Ok {A} body.
Arguments HTTPException {A} status_code detail.
Arguments InternalServerError {A}.

(** A handler runs in one session on the store. *)
Definition Handler (A : Type) : Type := Store -> Response A * Store.

(** The body [{"message": m}]. *)
Definition Message := string.

(** ** The handlers of [src/app.py] *)

Module Simple.

Module DisorderSchema.
Record t := mk {
  name : string;
  description : string;
  symptoms : string
}.
End DisorderSchema.

Module AssessmentSchema.
Record t := mk {
  session_id : string;
  answers : string;
  result : string;
  severity_score : Z;
  disorder_id : Z
}.
End AssessmentSchema.

(** POST /disorder *)
Definition create_disorder (disorder : DisorderSchema.t) : Handler Message :=
  fun session =>
    let existing :=
      find (fun d => Disorder.name d =? DisorderSchema.name disorder)%string
        (disorders session) in
    match existing with
    | None =>
        match add_disorder (DisorderSchema.name disorder)
                (DisorderSchema.description disorder)
                (Some (DisorderSchema.symptoms disorder)) session with
        | Some (_, session') => (Ok "Disorder created successfully", session')
        | None => (InternalServerError, session)
        end
    | Some _ => (Ok "Disorder already exists", session)
    end.

(** GET /disorder *)
Definition get_disorders : Handler (list Disorder.t) :=
  fun session => (Ok (disorders session), session).

(** GET /disorder/{disorder_id} *)
Definition get_disorder (disorder_id : Z) : Handler Disorder.t :=
  fun session =>
    match find (fun d => Disorder.id d =? disorder_id) (disorders session) with
    | None =>
        if sqlite_integer disorder_id
        then (HTTPException 404 "Disorder not found", session)
        else (InternalServerError, session)
    | Some disorder => (Ok disorder, session)
    end.

(** PATCH /disorder/{disorder_id} *)
Definition update_disorder (disorder_id : Z) (disorder : DisorderSchema.t)
    : Handler Message :=
  fun session =>
    match find (fun d => Disorder.id d =? disorder_id) (disorders session) with
    | None =>
        if sqlite_integer disorder_id
        then (HTTPException 404 "Disorder not found", session)
        else (InternalServerError, session)
    | Some existing_disorder =>
        match set_disorder existing_disorder (DisorderSchema.name disorder)
                (DisorderSchema.description disorder)
                (Some (DisorderSchema.symptoms disorder)) session with
        | Some session' => (Ok "Disorder updated successfully", session')
        | None => (InternalServerError, session)
        end
    end.

(** DELETE /disorder/{disorder_id} *)
Definition delete_disorder (disorder_id : Z) : Handler Message :=
  fun session =>
    match find (fun d => Disorder.id d =? disorder_id) (disorders session) with
    | None =>
        if sqlite_integer disorder_id
        then (HTTPException 404 "Disorder not found", session)
        else (InternalServerError, session)
    | Some disorder =>
        (Ok "Disorder deleted successfully", delete_disorder_row disorder session)
    end.

(** POST /assessment.  The commit binds [severity_score] to an integer
    column; [disorder_id] goes into a JSON column as text. *)
Definition create_assessment (assessment : AssessmentSchema.t) : Handler Message :=
  fun session =>
    if sqlite_integer (AssessmentSchema.severity_score assessment)
    then
      match add_assessment (AssessmentSchema.session_id assessment)
              (JsonStr (AssessmentSchema.answers assessment))
              (AssessmentSchema.result assessment)
              (AssessmentSchema.severity_score assessment)
              (Some [AssessmentSchema.disorder_id assessment]) session with
      | Some (_, session') => (Ok "Assessment added successfully", session')
      | None => (InternalServerError, session)
      end
    else (InternalServerError, session).

(** GET /assessment *)
Definition get_assessments : Handler (list Assessment.t) :=
  fun session => (Ok (assessments session), session).

(** GET /assessment/{assessment_id} *)
Definition get_assessment (assessment_id : Z) : Handler Assessment.t :=
  fun session =>
    match find (fun a => Assessment.id a =? assessment_id) (assessments session) with
    | None =>
        if sqlite_integer assessment_id
        then (HTTPException 404 "Assessment not found", session)
        else (InternalServerError, session)
    | Some assessment => (Ok assessment, session)
    end.

(** PATCH /assessment/{assessment_id} *)
Definition update_assessment (assessment_id : Z) (assessment : AssessmentSchema.t)
    : Handler Message :=
  fun session =>
    match find (fun a => Assessment.id a =? assessment_id) (assessments session) with
    | None =>
        if sqlite_integer assessment_id
        then (HTTPException 404 "Assessment not found", session)
        else (InternalServerError, session)
    | Some existing_assessment =>
        if sqlite_integer (AssessmentSchema.severity_score assessment)
        then
          match set_assessment existing_assessment
                  (AssessmentSchema.session_id assessment)
                  (JsonStr (AssessmentSchema.answers assessment))
                  (AssessmentSchema.result assessment)
                  (AssessmentSchema.severity_score assessment)
                  (Some [AssessmentSchema.disorder_id assessment]) session with
          | Some session' => (Ok "Assessment updated successfully", session')
          | None => (InternalServerError, session)
          end
        else (InternalServerError, session)
    end.

(** DELETE /assessment/{assessment_id} *)
Definition delete_assessment (assessment_id : Z) : Handler Message :=
  fun session =>
    match find (fun a => Assessment.id a =? assessment_id) (assessments session) with
    | None =>
        if sqlite_integer assessment_id
        then (HTTPException 404 "Assessment not found", session)
        else (InternalServerError, session)
    | Some assessment =>
        (Ok "Assessment deleted successfully", delete_assessment_row assessment session)
    end.

End Simple.

(** ** The handlers of [src/migration/app.py] *)

Module Api.

Module AssessmentRequest.
Record t := mk {
  answers : list string
}.
End AssessmentRequest.

Module AssessmentResponse.
Record t := mk {
  session_id : string;
  result : string;
  remedies : list string;
  severity : string;
  severity_score : Z
}.
End AssessmentResponse.

Module DisorderResponse.
Record t := mk {
  id : Z;
  name : string;
  description : string;
  symptoms : option string;
  remedies : list string
}.
End DisorderResponse.

Module RemedyResponse.
Record t := mk {
  id : Z;
  title : string;
  description : string;
  category : option string
}.
End RemedyResponse.

Module QuestionResponse.
Record t := mk {
  id : Z;
  text : string;
  category : option string
}.
End QuestionResponse.

(** What [response_model=RemedyResponse] keeps of a row. *)
Definition remedy_response (remedy : Remedy.t) : RemedyResponse.t :=
  {| RemedyResponse.id := Remedy.id remedy;
     RemedyResponse.title := Remedy.title remedy;
     RemedyResponse.description := Remedy.description remedy;
     RemedyResponse.category := Remedy.category remedy |}.

(** What [response_model=QuestionResponse] keeps of a row. *)
Definition question_response (question : Question.t) : QuestionResponse.t :=
  {| QuestionResponse.id := Question.id question;
     QuestionResponse.text := Question.text question;
     QuestionResponse.category := Question.category question |}.

(** POST /api/assessments; [uuid4] is the value of [str(uuid.uuid4())].  The
    score it writes is a count of the elements of a Python list, which the
    driver can always bind. *)
Definition create_assessment (uuid4 : string) (assessment : AssessmentRequest.t)
    : Handler AssessmentResponse.t :=
  fun db =>
    let answers := AssessmentRequest.answers assessment in
    match answers with
    | [] => (HTTPException 400 "Answers are required", db)
    | _ :: _ =>
        if Z.of_nat (List.length answers) <? 5
        then (HTTPException 400 "Please answer all questions", db)
        else
          let result_data := calculate_assessment_result answers in
          let session_id := uuid4 in
          match add_assessment session_id (JsonList answers)
                  (ResultData.result result_data)
                  (ResultData.severity_score result_data) None db with
          | Some (_, db') =>
              (Ok {| AssessmentResponse.session_id := session_id;
                     AssessmentResponse.result := ResultData.result result_data;
                     AssessmentResponse.remedies := ResultData.remedies result_data;
                     AssessmentResponse.severity := ResultData.severity result_data;
                     AssessmentResponse.severity_score :=
                       ResultData.severity_score result_data |}, db')
          | None => (InternalServerError, db)
          end
    end.

(** GET /api/assessments/{session_id} *)
Definition get_assessment (session_id : string) : Handler Assessment.t :=
  fun db =>
    match find (fun a => Assessment.session_id a =? session_id)%string
            (assessments db) with
    | None => (HTTPException 404 "Assessment not found", db)
    | Some assessment => (Ok assessment, db)
    end.

(** The [DisorderResponse] both disorder readers build. *)
Definition disorder_response (disorder : Disorder.t) (db : Store) : DisorderResponse.t :=
  let remedies :=
    filter (fun r => Remedy.disorder_id r =? Disorder.id disorder) (remedies db) in
  let remedy_list := map Remedy.title remedies in
  {| DisorderResponse.id := Disorder.id disorder;
     DisorderResponse.name := Disorder.name disorder;
     DisorderResponse.description := Disorder.description disorder;
     DisorderResponse.symptoms := Disorder.symptoms disorder;
     DisorderResponse.remedies := remedy_list |}.

(** GET /api/disorders *)
Definition get_disorders : Handler (list DisorderResponse.t) :=
  fun db => (Ok (map (fun disorder => disorder_response disorder db) (disorders db)), db).

(** GET /api/disorders/{disorder_id}; the remedies are those of the
    requested id, which is the id of the row found. *)
Definition get_disorder (disorder_id : Z) : Handler DisorderResponse.t :=
  fun db =>
    match find (fun d => Disorder.id d =? disorder_id) (disorders db) with
    | None =>
        if sqlite_integer disorder_id
        then (HTTPException 404 "Disorder not found", db)
        else (InternalServerError, db)
    | Some disorder =>
        let remedies :=
          filter (fun r => Remedy.disorder_id r =? disorder_id) (remedies db) in
        let remedy_list := map Remedy.title remedies in
        (Ok {| DisorderResponse.id := Disorder.id disorder;
               DisorderResponse.name := Disorder.name disorder;
               DisorderResponse.description := Disorder.description disorder;
               DisorderResponse.symptoms := Disorder.symptoms disorder;
               DisorderResponse.remedies := remedy_list |}, db)
    end.

(** [db.query(Disorder).filter(Disorder.name.ilike(pattern)).all()]: the
    store evaluates the LIKE on each row; [None] is its error on a pattern
    over the limit, which a table without rows does not raise. *)
Definition filter_ilike (pattern : string) (rows : list Disorder.t)
    : option (list Disorder.t) :=
  match rows with
  | [] => Some []
  | _ :: _ =>
      if like_pattern_limit <? Z.of_nat (String.length pattern) then None
      else Some (filter (fun d => ilike (Disorder.name d) pattern) rows)
  end.

(** GET /api/disorders/search/{name} *)
Definition search_disorders (name : string) : Handler (list DisorderResponse.t) :=
  fun db =>
    match filter_ilike ("%" ++ name ++ "%") (disorders db) with
    | None => (InternalServerError, db)
    | Some [] => (HTTPException 404 "No disorders found", db)
    | Some disorders =>
        (Ok (map (fun disorder => disorder_response disorder db) disorders), db)
    end.

(** GET /api/questions *)
Definition get_questions : Handler (list QuestionResponse.t) :=
  fun db =>
    let questions :=
      QuestionSort.sort (filter (fun q => Question.is_active q =? 1) (questions db)) in
    (Ok (map question_response questions), db).

(** GET /api/remedies *)
Definition get_remedies : Handler (list RemedyResponse.t) :=
  fun db => (Ok (map remedy_response (remedies db)), db).

(** GET /api/remedies/{remedy_id} *)
Definition get_remedy (remedy_id : Z) : Handler RemedyResponse.t :=
  fun db =>
    match find (fun r => Remedy.id r =? remedy_id) (remedies db) with
    | None =>
        if sqlite_integer remedy_id
        then (HTTPException 404 "Remedy not found", db)
        else (InternalServerError, db)
    | Some remedy => (Ok (remedy_response remedy), db)
    end.

(** The body of POST /api/seed-data: [disorders_added] is absent from the
    reply of a store that holds data. *)
Module SeedReply.
Record t := mk {
  message : string;
  disorders_added : option Z
}.
End SeedReply.

(** [remedies_data], given the three disorders created. *)
Definition remedies_data (created_disorders : Disorder.t * Disorder.t * Disorder.t)
    : list (Z * string * string * string) :=
  let '(d0, d1, d2) := created_disorders in
  [ (Disorder.id d0, "Cognitive Behavioral Therapy", "A type of psychotherapy that helps identify and change negative thought patterns.", "therapy");
    (Disorder.id d0, "Antidepressant Medication", "Medications that can help relieve symptoms of depression.", "medication");
    (Disorder.id d0, "Regular Exercise", "Physical activity releases endorphins and improves mood.", "lifestyle");
    (Disorder.id d1, "Exposure Therapy", "Gradual exposure to feared situations to reduce anxiety.", "therapy");
    (Disorder.id d1, "Mindfulness Meditation", "Practice focusing on the present moment to reduce worry.", "lifestyle");
    (Disorder.id d1, "Anti-anxiety Medication", "Medications that can help reduce anxiety symptoms.", "medication");
    (Disorder.id d2, "Mood Stabilizers", "Medications that help control mood swings.", "medication");
    (Disorder.id d2, "Psychoeducation", "Learning about the disorder and developing coping strategies.", "therapy");
    (Disorder.id d2, "Regular Sleep Schedule", "Maintaining consistent sleep patterns to help stabilize mood.", "lifestyle") ].

(** [questions_data]: text, category, weight, order_index. *)
Definition questions_data : list (string * string * Z * Z) :=
  [ ("Have you experienced persistent feelings of sadness or hopelessness?", "mood", 2, 1);
    ("Have you lost interest or pleasure in activities you used to enjoy?", "interest", 2, 2);
    ("Have you noticed changes in your appetite or weight?", "appetite", 1, 3);
    ("Do you have trouble sleeping or sleep too much?", "sleep", 1, 4);
    ("Do you often feel tired or lack energy?", "energy", 1, 5) ].

(** POST /api/seed-data.  The three disorders are flushed one by one and
    committed together; the remedies and the questions go in a second
    commit, which no constraint can refuse. *)
Definition seed_initial_data : Handler SeedReply.t :=
  fun db =>
    let disorder_count := Z.of_nat (List.length (disorders db)) in
    if disorder_count >? 0
    then (Ok {| SeedReply.message := "Data already seeded";
                SeedReply.disorders_added := None |}, db)
    else
      match add_disorder "Depression"
              "A mental health disorder characterized by persistent sadness, loss of interest in activities, and difficulty carrying out daily tasks."
              (Some "Persistent sadness, hopelessness, loss of interest, sleep disturbances, changes in appetite, fatigue, difficulty concentrating")
              db with
      | None => (InternalServerError, db)
      | Some (d0, db0) =>
      match add_disorder "Anxiety Disorder"
              "Excessive worry, fear, or anxiety that interferes with daily activities and is difficult to control."
              (Some "Excessive worry, restlessness, fatigue, difficulty concentrating, irritability, muscle tension, sleep problems")
              db0 with
      | None => (InternalServerError, db)
      | Some (d1, db1) =>
      match add_disorder "Bipolar Disorder"
              "A disorder associated with episodes of mood swings ranging from depressive lows to manic highs."
              (Some "Mood swings, manic episodes, depressive episodes, racing thoughts, irritability, sleep changes, risk-taking behavior")
              db1 with
      | None => (InternalServerError, db)
      | Some (d2, db2) =>
          let created_disorders := (d0, d1, d2) in
          let db3 :=
            fold_left
              (fun db '(disorder_id, title, description, category) =>
                 add_remedy disorder_id title description (Some category) db)
              (remedies_data created_disorders) db2 in
          let db4 :=
            fold_left
              (fun db '(text, category, weight, order_index) =>
                 add_question text (Some category) weight order_index db)
              questions_data db3 in
          (Ok {| SeedReply.message := "Database seeded successfully";
                 SeedReply.disorders_added := Some 3 |}, db4)
      end end end.

End Api.

(** ** Requests and the stores they lead to *)

Inductive Request :=
| PostDisorder (disorder : Simple.DisorderSchema.t)
| GetDisorders
| GetDisorder (disorder_id : Z)
| PatchDisorder (disorder_id : Z) (disorder : Simple.DisorderSchema.t)
| DeleteDisorder (disorder_id : Z)
| PostAssessment (assessment : Simple.AssessmentSchema.t)
| GetAssessments
| GetAssessment (assessment_id : Z)
| PatchAssessment (assessment_id : Z) (assessment : Simple.AssessmentSchema.t)
| DeleteAssessment (assessment_id : Z)
| PostApiAssessments (uuid4 : string) (assessment : Api.AssessmentRequest.t)
| GetApiAssessment (session_id : string)
| GetApiDisorders
| GetApiDisorder (disorder_id : Z)
| GetApiQuestions
| GetApiRemedies
| GetApiRemedy (remedy_id : Z)
| PostApiSeedData.

(** The store a request leaves behind. *)
Definition serve (req : Request) (db : Store) : Store :=
  match req with
  | PostDisorder disorder => snd (Simple.create_disorder disorder db)
  | GetDisorders => snd (Simple.get_disorders db)
  | GetDisorder disorder_id => snd (Simple.get_disorder disorder_id db)
  | PatchDisorder disorder_id disorder => snd (Simple.update_disorder disorder_id disorder db)
  | DeleteDisorder disorder_id => snd (Simple.delete_disorder disorder_id db)
  | PostAssessment assessment => snd (Simple.create_assessment assessment db)
  | GetAssessments => snd (Simple.get_assessments db)
  | GetAssessment assessment_id => snd (Simple.get_assessment assessment_id db)
  | PatchAssessment assessment_id assessment =>
      snd (Simple.update_assessment assessment_id assessment db)
  | DeleteAssessment assessment_id => snd (Simple.delete_assessment assessment_id db)
  | PostApiAssessments uuid4 assessment => snd (Api.create_assessment uuid4 assessment db)
  | GetApiAssessment session_id => snd (Api.get_assessment session_id db)
  | GetApiDisorders => snd (Api.get_disorders db)
  | GetApiDisorder disorder_id => snd (Api.get_disorder disorder_id db)
  | GetApiQuestions => snd (Api.get_questions db)
  | GetApiRemedies => snd (Api.get_remedies db)
  | GetApiRemedy remedy_id => snd (Api.get_remedy remedy_id db)
  | PostApiSeedData => snd (Api.seed_initial_data db)
  end.

(** The stores any sequence of requests can produce from the empty one. *)
Inductive reachable : Store -> Prop :=
| reachable_empty : reachable empty_store
| reachable_serve req db : reachable db -> reachable (serve req db).

(** ** Properties of a store *)

(** The constraints the schema declares: primary keys and the two
    [unique=True] columns. *)
Record integrity (db : Store) : Prop := mkIntegrity {
  disorder_ids_unique : NoDup (map Disorder.id (disorders db));
  remedy_ids_unique : NoDup (map Remedy.id (remedies db));
  assessment_ids_unique : NoDup (map Assessment.id (assessments db));
  question_ids_unique : NoDup (map Question.id (questions db));
  disorder_names_unique : NoDup (map Disorder.name (disorders db));
  session_ids_unique : NoDup (map Assessment.session_id (assessments db))
}.

(** Every remedy references a stored disorder. *)
Definition remedies_reference_disorders (db : Store) : Prop :=
  forall r, In r (remedies db) ->
    In (Remedy.disorder_id r) (map Disorder.id (disorders db)).

(** ** Equality up to letter case *)

Definition is_upper (c : ascii) : bool :=
  let n := N_of_ascii c in ((65 <=? n) && (n <=? 90))%N.

(** Two characters are the same letter in either case, or the same
    character. *)
Definition eq_char_ignore_case (c1 c2 : ascii) : bool :=
  let n1 := N_of_ascii c1 in
  let n2 := N_of_ascii c2 in
  ((n1 =? n2) || (is_upper c1 && (n2 =? n1 + 32)) || (is_upper c2 && (n1 =? n2 + 32)))%N.

Fixpoint eq_ignore_case (s1 s2 : string) : bool :=
  match s1, s2 with
  | EmptyString, EmptyString => true
  | String c1 s1', String c2 s2' => eq_char_ignore_case c1 c2 && eq_ignore_case s1' s2'
  | _, _ => false
  end.

(** The number of answers equal to "yes" up to letter case. *)
Definition count_yes (answers : list string) : nat :=
  List.length (filter (fun answer => eq_ignore_case answer "yes") answers).

(** ** The three outcomes of the scoring function *)

Definition high_narrative : string :=
  "Based on your responses, you may be experiencing significant symptoms. Professional support is recommended.".

Definition high_remedies : list string :=
  [ "Consult with a mental health professional";
    "Consider therapy or counseling";
    "Practice daily self-care routines";
    "Reach out to support networks";
    "Consider medication evaluation with a doctor" ].

Definition medium_narrative : string :=
  "You're showing some symptoms that may benefit from attention and self-care.".

Definition medium_remedies : list string :=
  [ "Practice mindfulness and meditation";
    "Maintain a consistent daily routine";
    "Engage in regular physical activity";
    "Connect with friends and family";
    "Monitor your symptoms over time" ].

Definition low_narrative : string :=
  "Your responses suggest you're managing well. Continue healthy habits.".

Definition low_remedies : list string :=
  [ "Continue with your current healthy routines";
    "Stay connected with your support system";
    "Practice stress management techniques";
    "Regular mental health check-ins";
    "Help others who may be struggling" ].

(** A result with one of the three tiers, five remedies, a narrative and a
    score that is a count. *)
Definition well_formed (r : ResultData.t) : Prop :=
  In (ResultData.severity r) ["low"; "medium"; "high"] /\
  List.length (ResultData.remedies r) = 5%nat /\
  ResultData.result r <> "" /\
  0 <= ResultData.severity_score r.

(** ** Rows and requests used as examples *)


Definition depression : Simple.DisorderSchema.t :=
  {| Simple.DisorderSchema.name := "Depression";
     Simple.DisorderSchema.description := "A mental health disorder characterized by persistent sadness, loss of interest in activities, and difficulty carrying out daily tasks.";
     Simple.DisorderSchema.symptoms := "Persistent sadness, hopelessness, loss of interest, sleep disturbances, changes in appetite, fatigue, difficulty concentrating" |}.

(** The same request with the name in lower case. *)
Definition depression_lower_case : Simple.DisorderSchema.t :=
  {| Simple.DisorderSchema.name := lower (Simple.DisorderSchema.name depression);
     Simple.DisorderSchema.description := Simple.DisorderSchema.description depression;
     Simple.DisorderSchema.symptoms := Simple.DisorderSchema.symptoms depression |}.

(** The body [test_post_assessment] posts. *)
Definition session123 : Simple.AssessmentSchema.t :=
  {| Simple.AssessmentSchema.session_id := "session123";
     Simple.AssessmentSchema.answers := "yes,no,yes";
     Simple.AssessmentSchema.result := "medium";
     Simple.AssessmentSchema.severity_score := 3;
     Simple.AssessmentSchema.disorder_id := 1 |}.

(** The same body under another session id. *)
Definition session456 : Simple.AssessmentSchema.t :=
  {| Simple.AssessmentSchema.session_id := "session456";
     Simple.AssessmentSchema.answers := Simple.AssessmentSchema.answers session123;
     Simple.AssessmentSchema.result := Simple.AssessmentSchema.result session123;
     Simple.AssessmentSchema.severity_score :=
       Simple.AssessmentSchema.severity_score session123;
     Simple.AssessmentSchema.disorder_id := Simple.AssessmentSchema.disorder_id session123 |}.

(** The store after POST /api/seed-data on the empty store. *)
Definition seeded_store : Store := serve PostApiSeedData empty_store.

(** The store after POST /assessment with [session123] on the empty store. *)
Definition one_assessment_store : Store := serve (PostAssessment session123) empty_store.

(** ** Session ids under a request *)

(** The request leaves every stored assessment its session id. *)
Definition keeps_session_ids (req : Request) (db : Store) : Prop :=
  forall a a', In a (assessments db) -> In a' (assessments (serve req db)) ->
    Assessment.id a' = Assessment.id a ->
    Assessment.session_id a' = Assessment.session_id a.

(** ** Queries without wildcards *)

(** A query none of whose bytes is the percent sign, the underscore or
    zero. *)
Fixpoint plain (s : string) : bool :=
  match s with
  | EmptyString => true
  | String b s' =>
      negb ((b =? "%") || (b =? "_") || (b =? zero))%char && plain s'
  end.

(** A character that is no upper-case ASCII letter. *)
Definition no_upper (c : N) : Prop := ~ (65 <= c <= 90)%N.

Fixpoint starts_with (part whole : list N) : bool :=
  match part, whole with
  | [], _ => true
  | c :: part', d :: whole' => (c =? d)%N && starts_with part' whole'
  | _ :: _, [] => false
  end.

(** The characters [part] occur, one after the other, in [whole]. *)
Fixpoint contains (part whole : list N) : bool :=
  starts_with part whole ||
  match whole with
  | [] => false
  | _ :: whole' => contains part whole'
  end.

(** * Proofs *)

(** ** Lowering and equality up to case *)

Lemma N_of_ascii_inj (c1 c2 : ascii) : N_of_ascii c1 = N_of_ascii c2 -> c1 = c2.
Proof.
  intros H. rewrite <- (ascii_N_embedding c1), <- (ascii_N_embedding c2).
  now rewrite H.
Qed.

Lemma N_of_lower_char (c : ascii) :
  N_of_ascii (lower_char c) =
  (if is_upper c then N_of_ascii c + 32 else N_of_ascii c)%N.
Proof.
  unfold lower_char, is_upper; cbv zeta.
  destruct ((65 <=? N_of_ascii c) && (N_of_ascii c <=? 90))%N eqn:E; [|reflexivity].
  apply andb_true_iff in E as [_ E]. apply N.leb_le in E.
  apply N_ascii_embedding. lia.
Qed.

Lemma eq_char_ignore_case_lower (c1 c2 : ascii) :
  eq_char_ignore_case c1 c2 = (lower_char c1 =? lower_char c2)%char.
Proof.
  apply eq_true_iff_eq. rewrite Ascii.eqb_eq.
  assert (lower_char c1 = lower_char c2 <->
          N_of_ascii (lower_char c1) = N_of_ascii (lower_char c2)) as ->
    by (split; [intros ->; reflexivity | apply N_of_ascii_inj]).
  rewrite !N_of_lower_char.
  unfold eq_char_ignore_case, is_upper; cbv zeta.
  destruct ((65 <=? N_of_ascii c1) && (N_of_ascii c1 <=? 90))%N eqn:U1,
           ((65 <=? N_of_ascii c2) && (N_of_ascii c2 <=? 90))%N eqn:U2;
    rewrite ?andb_true_iff, ?andb_false_iff, ?N.leb_le, ?N.leb_gt in U1;
    rewrite ?andb_true_iff, ?andb_false_iff, ?N.leb_le, ?N.leb_gt in U2;
    rewrite ?andb_true_l, ?andb_false_l, ?orb_false_r, ?orb_true_iff, ?N.eqb_eq;
    lia.
Qed.

Lemma eq_ignore_case_lower (s1 s2 : string) :
  eq_ignore_case s1 s2 = (lower s1 =? lower s2)%string.
Proof.
  revert s2; induction s1 as [|c1 s1 IH]; intros [|c2 s2]; simpl; try reflexivity.
  rewrite eq_char_ignore_case_lower, IH. reflexivity.
Qed.

(** The test of the scoring function is equality with "yes" up to case. *)
Lemma lower_is_yes (answer : string) :
  (lower answer =? "yes")%string = eq_ignore_case answer "yes".
Proof. rewrite eq_ignore_case_lower. reflexivity. Qed.

Lemma eq_char_ignore_case_lower_letter (c l : ascii) :
  is_upper l = false -> eq_char_ignore_case c l = true ->
  c = l \/ c = ascii_of_N (N_of_ascii l - 32).
Proof.
  intros Hl. unfold eq_char_ignore_case; cbv zeta. rewrite Hl.
  rewrite andb_false_l, orb_false_r, orb_true_iff, andb_true_iff, !N.eqb_eq.
  intros [H|[_ H]].
  - left. apply N_of_ascii_inj, H.
  - right. rewrite <- (ascii_N_embedding c). f_equal. lia.
Qed.

(** The answers that count are the eight spellings of "yes". *)
Lemma eq_ignore_case_yes (answer : string) :
  eq_ignore_case answer "yes" = true <->
  In answer ["yes"; "yeS"; "yEs"; "yES"; "Yes"; "YeS"; "YEs"; "YES"].
Proof.
  split.
  - destruct answer as [|c1 [|c2 [|c3 [|c4 s]]]]; simpl; try discriminate;
      rewrite ?andb_false_r; try discriminate.
    rewrite andb_true_r, !andb_true_iff. intros (H1 & H2 & H3).
    apply eq_char_ignore_case_lower_letter in H1, H2, H3; try reflexivity.
    destruct H1 as [->| ->], H2 as [->| ->], H3 as [->| ->]; simpl; tauto.
  - simpl. intuition (subst; reflexivity).
Qed.

Lemma sum_ones_from {A : Type} (l : list A) (acc : Z) :
  fold_left Z.add (map (fun _ => 1) l) acc = acc + Z.of_nat (List.length l).
Proof.
  revert acc; induction l as [|x l IH]; intros acc; simpl List.length; simpl fold_left.
  - lia.
  - rewrite IH. lia.
Qed.

Lemma yes_count_count_yes (answers : list string) :
  yes_count answers = Z.of_nat (count_yes answers).
Proof.
  unfold yes_count, count_yes, sum. rewrite sum_ones_from.
  rewrite (filter_ext _ _ lower_is_yes). lia.
Qed.

Lemma count_yes_le_length (answers : list string) :
  (count_yes answers <= List.length answers)%nat.
Proof. unfold count_yes. apply filter_length_le. Qed.

(** ** The scoring function *)

Lemma count_yes_none (answers : list string) :
  (forall answer, In answer answers -> eq_ignore_case answer "yes" = false) ->
  count_yes answers = 0%nat.
Proof.
  unfold count_yes. induction answers as [|a l IH]; intros Hno; [reflexivity|].
  simpl. rewrite (Hno a (or_introl eq_refl)).
  apply IH. intros b Hb. apply Hno. right. exact Hb.
Qed.

Example four_yes_of_five :
  calculate_assessment_result ["yes"; "yes"; "yes"; "yes"; "no"]
  = ResultData.mk high_narrative "high" 4 high_remedies.
Proof. reflexivity. Qed.

Example one_yes_of_five :
  calculate_assessment_result ["no"; "no"; "unsure"; "no"; "yes"]
  = ResultData.mk low_narrative "low" 1 low_remedies.
Proof. reflexivity. Qed.

Example tier_boundaries :
  map (fun answers =>
         (ResultData.severity_score (calculate_assessment_result answers),
          ResultData.severity (calculate_assessment_result answers)))
    [ ["no"; "no"; "no"; "no"; "no"];
      ["YES"; "no"; "no"; "no"; "no"];
      ["yes"; "Yes"; "no"; "no"; "no"];
      ["yes"; "yes"; "yes"; ""; "no"];
      ["yes"; "yes"; "yes"; "yes"; "unsure"];
      ["yes"; "yes"; "yes"; "yes"; "yes"];
      ["yes"; "yes"; "yes"; "yes"; "yes"; "yes"] ]
  = [(0, "low"); (1, "low"); (2, "medium"); (3, "medium");
     (4, "high"); (5, "high"); (6, "high")].
Proof. reflexivity. Qed.

Lemma calculate_assessment_result_cases (answers : list string) :
  let n := Z.of_nat (count_yes answers) in
  calculate_assessment_result answers =
    if n >=? 4 then ResultData.mk high_narrative "high" n high_remedies
    else if n >=? 2 then ResultData.mk medium_narrative "medium" n medium_remedies
    else ResultData.mk low_narrative "low" n low_remedies.
Proof.
  cbv zeta. unfold calculate_assessment_result.
  rewrite yes_count_count_yes. reflexivity.
Qed.

(** C1. For a list of at least 5 answers the score is the number of answers
    equal to "yes" up to letter case; 4 or more give the tier "high", 2 or 3
    the tier "medium", 0 or 1 the tier "low", each with its fixed narrative
    and its fixed list of five remedies. *)
Theorem calculate_assessment_result_tiers (answers : list string) :
  (5 <= List.length answers)%nat ->
  ResultData.severity_score (calculate_assessment_result answers)
    = Z.of_nat (count_yes answers) /\
  List.length (ResultData.remedies (calculate_assessment_result answers)) = 5%nat /\
  ((4 <= count_yes answers)%nat ->
     ResultData.severity (calculate_assessment_result answers) = "high" /\
     ResultData.result (calculate_assessment_result answers) = high_narrative /\
     ResultData.remedies (calculate_assessment_result answers) = high_remedies) /\
  ((2 <= count_yes answers <= 3)%nat ->
     ResultData.severity (calculate_assessment_result answers) = "medium" /\
     ResultData.result (calculate_assessment_result answers) = medium_narrative /\
     ResultData.remedies (calculate_assessment_result answers) = medium_remedies) /\
  ((count_yes answers <= 1)%nat ->
     ResultData.severity (calculate_assessment_result answers) = "low" /\
     ResultData.result (calculate_assessment_result answers) = low_narrative /\
     ResultData.remedies (calculate_assessment_result answers) = low_remedies).
Proof.
  intros _. rewrite calculate_assessment_result_cases; cbv zeta.
  destruct (Z.geb_spec (Z.of_nat (count_yes answers)) 4) as [H4|H4];
    [|destruct (Z.geb_spec (Z.of_nat (count_yes answers)) 2) as [H2|H2]];
    cbn [ResultData.severity_score ResultData.severity ResultData.result
         ResultData.remedies];
    repeat split; try reflexivity; intros; lia.
Qed.

Lemma calculate_assessment_result_tiers_witness :
  ResultData.severity_score
    (calculate_assessment_result ["yes"; "Yes"; "YES"; "yes"; "no"; "yes"; "yEs"]) = 6 /\
  ResultData.severity
    (calculate_assessment_result ["yes"; "Yes"; "YES"; "yes"; "no"; "yes"; "yEs"]) = "high".
Proof.
  pose proof (calculate_assessment_result_tiers
                ["yes"; "Yes"; "YES"; "yes"; "no"; "yes"; "yEs"]) as H.
  destruct H as (Hscore & _ & Hhigh & _).
  - simpl. lia.
  - split.
    + rewrite Hscore. reflexivity.
    + apply Hhigh. vm_compute. lia.
Defined.

(** C10. The scoring function returns a well-formed result on every list of
    strings, the empty and the short ones included: the score is the number
    of answers equal to "yes" up to letter case, and a list without such an
    answer gets the score 0 and the tier "low". *)
Theorem calculate_assessment_result_total (answers : list string) :
  well_formed (calculate_assessment_result answers) /\
  ResultData.severity_score (calculate_assessment_result answers)
    = Z.of_nat (count_yes answers) /\
  ResultData.severity_score (calculate_assessment_result answers)
    <= Z.of_nat (List.length answers) /\
  ((forall answer, In answer answers -> eq_ignore_case answer "yes" = false) ->
     ResultData.severity_score (calculate_assessment_result answers) = 0 /\
     ResultData.severity (calculate_assessment_result answers) = "low") /\
  calculate_assessment_result [] = ResultData.mk low_narrative "low" 0 low_remedies.
Proof.
  pose proof (count_yes_le_length answers) as Hle.
  pose proof (count_yes_none answers) as Hnone.
  rewrite calculate_assessment_result_cases; cbv zeta.
  unfold well_formed.
  destruct (Z.geb_spec (Z.of_nat (count_yes answers)) 4) as [H4|H4];
    [|destruct (Z.geb_spec (Z.of_nat (count_yes answers)) 2) as [H2|H2]];
    cbn [ResultData.severity_score ResultData.severity ResultData.result
         ResultData.remedies];
    repeat split; try reflexivity; try discriminate; try lia;
    try (simpl; tauto);
    try (simpl; tauto);
    match goal with
    | Hno : forall answer, In answer _ -> _ |- _ => apply Hnone in Hno; lia
    end.
Qed.

(** ** Tables: keys, unique columns, lookups *)

Lemma le_fold_max (ids : list Z) (x : Z) : In x ids -> x <= fold_right Z.max 0 ids.
Proof.
  induction ids as [|y ids IH]; simpl; [tauto|].
  intros [->|H]; [|specialize (IH H)]; lia.
Qed.

Lemma next_id_fresh (ids : list Z) : ~ In (next_id ids) ids.
Proof.
  intros H. apply le_fold_max in H. unfold next_id in H. lia.
Qed.

Lemma fold_left_preserves {A B : Type} (P : A -> Prop) (f : A -> B -> A) (l : list B) :
  (forall a b, In b l -> P a -> P (f a b)) -> forall a, P a -> P (fold_left f l a).
Proof.
  induction l as [|b l IH]; simpl; intros Hf a Ha; [exact Ha|].
  apply IH; [intros; apply Hf; auto|apply Hf; auto].
Qed.

Section Table.

Context {Row Col : Type} (col : Row -> Col).

Lemma NoDup_map_snoc (rows : list Row) (row : Row) :
  NoDup (map col rows) -> ~ In (col row) (map col rows) ->
  NoDup (map col (rows ++ [row])).
Proof.
  intros Hnd Hfresh. rewrite map_app. simpl.
  induction (map col rows) as [|c cs IH]; simpl.
  - constructor; [simpl; tauto|constructor].
  - inversion Hnd as [|? ? Hc Hcs]; subst.
    constructor.
    + rewrite in_app_iff. simpl in *. intuition congruence.
    + apply IH; [exact Hcs|]. simpl in Hfresh. tauto.
Qed.

Lemma NoDup_map_filter (keep : Row -> bool) (rows : list Row) :
  NoDup (map col rows) -> NoDup (map col (filter keep rows)).
Proof.
  induction rows as [|r rows IH]; simpl; intros Hnd; [constructor|].
  inversion Hnd as [|? ? Hr Hrows]; subst.
  destruct (keep r); simpl; [constructor|]; auto.
  intros Hin. apply Hr. apply in_map_iff in Hin as (r' & E & Hin).
  apply filter_In in Hin as [Hin _]. rewrite <- E. apply in_map. exact Hin.
Qed.

(** The row a lookup by a unique column finds is the row stored. *)
Lemma find_unique (eqb : Col -> Col -> bool) (rows : list Row) (row : Row) :
  (forall c1 c2, eqb c1 c2 = true <-> c1 = c2) ->
  NoDup (map col rows) -> In row rows ->
  find (fun r => eqb (col r) (col row)) rows = Some row.
Proof.
  intros Heqb. induction rows as [|r rows IH]; simpl; intros Hnd Hin; [tauto|].
  inversion Hnd as [|? ? Hr Hrows]; subst.
  destruct (eqb (col r) (col row)) eqn:E.
  - destruct Hin as [->|Hin]; [reflexivity|].
    apply Heqb in E. exfalso. apply Hr. rewrite E. apply in_map. exact Hin.
  - destruct Hin as [->|Hin]; [|auto].
    assert (eqb (col row) (col row) = true) by (apply Heqb; reflexivity).
    congruence.
Qed.

(** A lookup by a value no row holds finds nothing. *)
Lemma find_absent (eqb : Col -> Col -> bool) (rows : list Row) (c : Col) :
  (forall c1 c2, eqb c1 c2 = true <-> c1 = c2) ->
  ~ In c (map col rows) -> find (fun r => eqb (col r) c) rows = None.
Proof.
  intros Heqb Hc. induction rows as [|r rows IH]; simpl; [reflexivity|].
  simpl in Hc. destruct (eqb (col r) c) eqn:E.
  - apply Heqb in E. tauto.
  - apply IH. tauto.
Qed.

Lemma existsb_absent (eqb : Col -> Col -> bool) (rows : list Row) (c : Col) :
  (forall c1 c2, eqb c1 c2 = true <-> c1 = c2) ->
  existsb (fun r => eqb (col r) c) rows = false -> ~ In c (map col rows).
Proof.
  intros Heqb Hex Hin. apply in_map_iff in Hin as (r & E & Hr).
  assert (existsb (fun r => eqb (col r) c) rows = true) as Ht; [|congruence].
  apply existsb_exists. exists r. split; [exact Hr|]. apply Heqb. exact E.
Qed.

End Table.

Section Update.

Context {Row Col : Type} (key : Row -> Z) (col : Row -> Col).
Context (pk : Z) (c : Col) (upd : Row -> Row).
Hypothesis key_upd : forall r, key (upd r) = key r.
Hypothesis col_upd : forall r, col (upd r) = c.

Let update (r : Row) : Row := if key r =? pk then upd r else r.

Lemma map_key_update (rows : list Row) : map key (map update rows) = map key rows.
Proof.
  rewrite map_map. apply map_ext. intros r. unfold update.
  destruct (key r =? pk); [apply key_upd|reflexivity].
Qed.

Lemma update_other (rows : list Row) :
  ~ In pk (map key rows) -> map update rows = rows.
Proof.
  induction rows as [|r rows IH]; simpl; intros H; [reflexivity|].
  unfold update at 1. destruct (Z.eqb_spec (key r) pk) as [E|E]; [tauto|].
  rewrite IH; tauto.
Qed.

(** Writing [c] into the row of key [pk] keeps the column unique when no
    other row holds [c]. *)
Lemma NoDup_map_update (rows : list Row) :
  NoDup (map key rows) -> NoDup (map col rows) ->
  (forall r, In r rows -> key r <> pk -> col r <> c) ->
  NoDup (map col (map update rows)).
Proof.
  induction rows as [|r rows IH]; simpl; intros Hkey Hcol Hother; [constructor|].
  inversion Hkey as [|? ? Hk Hks]; subst. inversion Hcol as [|? ? Hc Hcs]; subst.
  unfold update at 1. destruct (Z.eqb_spec (key r) pk) as [E|E].
  - rewrite update_other by congruence. rewrite col_upd. constructor; [|exact Hcs].
    intros Hin. apply in_map_iff in Hin as (r' & E' & Hr').
    apply (Hother r'); auto.
    intros E''. apply Hk. rewrite E, <- E''. apply in_map. exact Hr'.
  - constructor; [|apply IH; auto].
    intros Hin. apply in_map_iff in Hin as (r' & E' & Hr').
    apply in_map_iff in Hr' as (r'' & <- & Hr'').
    unfold update in E'. destruct (key r'' =? pk).
    + rewrite col_upd in E'. apply (Hother r); auto.
    + apply Hc. rewrite <- E'. apply in_map. exact Hr''.
Qed.

End Update.

(** ** The schema constraints hold in every reachable store *)

Lemma integrity_empty : integrity empty_store.
Proof. constructor; simpl; constructor. Qed.

Lemma add_disorder_integrity name description symptoms db row db' :
  add_disorder name description symptoms db = Some (row, db') ->
  integrity db -> integrity db'.
Proof.
  unfold add_disorder. intros H [H1 H2 H3 H4 H5 H6].
  destruct (existsb _ _) eqn:E; [discriminate|]. injection H as <- <-.
  constructor; simpl; auto.
  - apply NoDup_map_snoc; [exact H1|]. simpl. apply next_id_fresh.
  - apply NoDup_map_snoc; [exact H5|]. simpl.
    apply (existsb_absent Disorder.name String.eqb); [apply String.eqb_eq|exact E].
Qed.

Lemma add_remedy_integrity disorder_id title description category db :
  integrity db -> integrity (add_remedy disorder_id title description category db).
Proof.
  intros [H1 H2 H3 H4 H5 H6]. constructor; simpl; auto.
  apply NoDup_map_snoc; [exact H2|]. simpl. apply next_id_fresh.
Qed.

Lemma add_question_integrity text category weight order_index db :
  integrity db -> integrity (add_question text category weight order_index db).
Proof.
  intros [H1 H2 H3 H4 H5 H6]. constructor; simpl; auto.
  apply NoDup_map_snoc; [exact H4|]. simpl. apply next_id_fresh.
Qed.

Lemma add_assessment_integrity session_id answers result score suggested db row db' :
  add_assessment session_id answers result score suggested db = Some (row, db') ->
  integrity db -> integrity db'.
Proof.
  unfold add_assessment. intros H [H1 H2 H3 H4 H5 H6].
  destruct (existsb _ _) eqn:E; [discriminate|]. injection H as <- <-.
  constructor; simpl; auto.
  - apply NoDup_map_snoc; [exact H3|]. simpl. apply next_id_fresh.
  - apply NoDup_map_snoc; [exact H6|]. simpl.
    apply (existsb_absent Assessment.session_id String.eqb);
      [apply String.eqb_eq|exact E].
Qed.

Lemma existsb_other {Row : Type} (key : Row -> Z) (col : Row -> string)
    (pk : Z) (c : string) (rows : list Row) :
  existsb (fun r => negb (key r =? pk) && (col r =? c)%string) rows = false ->
  forall r, In r rows -> key r <> pk -> col r <> c.
Proof.
  intros Hex r Hr Hk Hc.
  assert (existsb (fun r => negb (key r =? pk) && (col r =? c)%string) rows = true)
    as Ht; [|congruence].
  apply existsb_exists. exists r. split; [exact Hr|].
  apply andb_true_iff. split.
  - apply negb_true_iff, Z.eqb_neq. exact Hk.
  - apply String.eqb_eq. exact Hc.
Qed.

Lemma set_disorder_integrity existing name description symptoms db db' :
  set_disorder existing name description symptoms db = Some db' ->
  integrity db -> integrity db'.
Proof.
  unfold set_disorder; cbv zeta. intros H [H1 H2 H3 H4 H5 H6].
  destruct (existsb _ _) eqn:E; [discriminate|]. injection H as <-.
  constructor; simpl; auto.
  - rewrite (map_key_update Disorder.id); [exact H1|reflexivity].
  - apply (NoDup_map_update Disorder.id Disorder.name _ name); auto.
    apply (existsb_other Disorder.id Disorder.name). exact E.
Qed.

Lemma set_assessment_integrity existing session_id answers result score suggested db db' :
  set_assessment existing session_id answers result score suggested db = Some db' ->
  integrity db -> integrity db'.
Proof.
  unfold set_assessment; cbv zeta. intros H [H1 H2 H3 H4 H5 H6].
  destruct (existsb _ _) eqn:E; [discriminate|]. injection H as <-.
  constructor; simpl; auto.
  - rewrite (map_key_update Assessment.id); [exact H3|reflexivity].
  - apply (NoDup_map_update Assessment.id Assessment.session_id _ session_id); auto.
    apply (existsb_other Assessment.id Assessment.session_id). exact E.
Qed.

Lemma delete_disorder_row_integrity disorder db :
  integrity db -> integrity (delete_disorder_row disorder db).
Proof.
  intros [H1 H2 H3 H4 H5 H6]. constructor; simpl; auto using NoDup_map_filter.
Qed.

Lemma delete_assessment_row_integrity assessment db :
  integrity db -> integrity (delete_assessment_row assessment db).
Proof.
  intros [H1 H2 H3 H4 H5 H6]. constructor; simpl; auto using NoDup_map_filter.
Qed.

Lemma seed_initial_data_integrity db :
  integrity db -> integrity (snd (Api.seed_initial_data db)).
Proof.
  intros Hdb. unfold Api.seed_initial_data; cbv zeta.
  destruct (_ >? 0); [exact Hdb|].
  destruct (add_disorder "Depression" _ _ db) as [[d0 db0]|] eqn:E0; [|exact Hdb].
  destruct (add_disorder "Anxiety Disorder" _ _ db0) as [[d1 db1]|] eqn:E1; [|exact Hdb].
  destruct (add_disorder "Bipolar Disorder" _ _ db1) as [[d2 db2]|] eqn:E2; [|exact Hdb].
  cbn [snd].
  apply fold_left_preserves.
  { intros a [[[text category] weight] order_index] _. apply add_question_integrity. }
  apply fold_left_preserves.
  { intros a [[[disorder_id title] description] category] _. apply add_remedy_integrity. }
  eauto using add_disorder_integrity.
Qed.

(** Splits a handler along the tests it makes. *)
Ltac handler_cases :=
  repeat match goal with
         | |- context [match ?x with _ => _ end] => destruct x eqn:?
         end.

Lemma serve_integrity req db : integrity db -> integrity (serve req db).
Proof.
  intros Hdb.
  destruct req; try exact Hdb; try apply seed_initial_data_integrity, Hdb;
    cbn [serve];
    unfold Simple.create_disorder, Simple.get_disorder, Simple.update_disorder,
      Simple.delete_disorder, Simple.create_assessment, Simple.get_assessment,
      Simple.update_assessment, Simple.delete_assessment, Api.create_assessment,
      Api.get_assessment, Api.get_disorder, Api.get_remedy;
    cbv zeta; handler_cases; cbn [snd]; try exact Hdb;
    eauto using add_disorder_integrity, set_disorder_integrity,
      delete_disorder_row_integrity, add_assessment_integrity,
      set_assessment_integrity, delete_assessment_row_integrity.
Qed.

Lemma reachable_integrity db : reachable db -> integrity db.
Proof.
  induction 1 as [|req db _ IH]; [apply integrity_empty|apply serve_integrity, IH].
Qed.

(** ** Every remedy of a reachable store references a stored disorder *)

Lemma add_disorder_rows name description symptoms db row db' :
  add_disorder name description symptoms db = Some (row, db') ->
  disorders db' = (disorders db ++ [row])%list /\ remedies db' = remedies db /\
  assessments db' = assessments db /\ questions db' = questions db /\
  Disorder.name row = name.
Proof.
  unfold add_disorder. destruct (existsb _ _); [discriminate|].
  intros H. injection H as <- <-. simpl. auto.
Qed.

Lemma add_disorder_references name description symptoms db row db' :
  add_disorder name description symptoms db = Some (row, db') ->
  remedies_reference_disorders db -> remedies_reference_disorders db'.
Proof.
  intros H Hdb r Hr. apply add_disorder_rows in H as (Hd & Hrem & _).
  rewrite Hrem in Hr. rewrite Hd, map_app. apply in_or_app. left. auto.
Qed.

Lemma add_remedy_references disorder_id title description category db :
  In disorder_id (map Disorder.id (disorders db)) ->
  remedies_reference_disorders db ->
  remedies_reference_disorders (add_remedy disorder_id title description category db).
Proof.
  intros Hid Hdb r Hr. simpl in *. apply in_app_or in Hr as [Hr|[<-|[]]]; auto.
Qed.

Lemma set_disorder_references existing name description symptoms db db' :
  set_disorder existing name description symptoms db = Some db' ->
  remedies_reference_disorders db -> remedies_reference_disorders db'.
Proof.
  unfold set_disorder; cbv zeta. destruct (existsb _ _); [discriminate|].
  intros H Hdb r Hr. injection H as <-. simpl in *.
  rewrite (map_key_update Disorder.id); [auto|reflexivity].
Qed.

(** A remedy the cascade leaves in the store is not a remedy of the deleted
    disorder. *)
Lemma delete_disorder_row_remaining disorder db r :
  In r (remedies (delete_disorder_row disorder db)) ->
  In r (remedies db) /\ Remedy.disorder_id r <> Disorder.id disorder.
Proof.
  simpl. rewrite filter_In, negb_true_iff. intros [Hr Hex]. split; [exact Hr|].
  intros E.
  assert (existsb (fun r' => Remedy.id r =? Remedy.id r')
            (filter (fun r0 => Remedy.disorder_id r0 =? Disorder.id disorder)
               (remedies db)) = true) as Ht; [|congruence].
  apply existsb_exists. exists r. split; [|apply Z.eqb_refl].
  apply filter_In. split; [exact Hr|]. apply Z.eqb_eq. exact E.
Qed.

Lemma delete_disorder_row_references disorder db :
  remedies_reference_disorders db ->
  remedies_reference_disorders (delete_disorder_row disorder db).
Proof.
  intros Hdb r Hr. apply delete_disorder_row_remaining in Hr as [Hr Hne].
  specialize (Hdb r Hr). apply in_map_iff in Hdb as (d & E & Hd).
  simpl. apply in_map_iff. exists d. split; [exact E|].
  apply filter_In. split; [exact Hd|].
  apply negb_true_iff, Z.eqb_neq. congruence.
Qed.

Lemma seed_initial_data_references db :
  remedies_reference_disorders db ->
  remedies_reference_disorders (snd (Api.seed_initial_data db)).
Proof.
  intros Hdb. unfold Api.seed_initial_data; cbv zeta.
  destruct (_ >? 0); [exact Hdb|].
  destruct (add_disorder "Depression" _ _ db) as [[d0 db0]|] eqn:E0; [|exact Hdb].
  destruct (add_disorder "Anxiety Disorder" _ _ db0) as [[d1 db1]|] eqn:E1; [|exact Hdb].
  destruct (add_disorder "Bipolar Disorder" _ _ db1) as [[d2 db2]|] eqn:E2; [|exact Hdb].
  cbn [snd].
  assert (remedies_reference_disorders db2) as Hdb2
    by eauto using add_disorder_references.
  assert (forall d, In d [d0; d1; d2] -> In (Disorder.id d) (map Disorder.id (disorders db2)))
    as Hcreated.
  { apply add_disorder_rows in E0 as (H0 & _), E1 as (H1 & _), E2 as (H2 & _).
    intros d Hd. apply in_map. rewrite H2, H1, H0, !in_app_iff.
    simpl in *. intuition. }
  apply (fold_left_preserves
           (fun a => remedies_reference_disorders a /\ disorders a = disorders db2)).
  { intros a [[[text category] weight] order_index] _ [Ha Hd]. split; [|exact Hd].
    intros r Hr. exact (Ha r Hr). }
  apply (fold_left_preserves
           (fun a => remedies_reference_disorders a /\ disorders a = disorders db2)).
  { intros a [[[disorder_id title] description] category] Hin [Ha Hd]. split; [|exact Hd].
    apply add_remedy_references; [|exact Ha]. rewrite Hd.
    unfold Api.remedies_data in Hin. simpl in Hin.
    repeat (destruct Hin as [Hin|Hin];
            [injection Hin as <- _ _ _; apply Hcreated; simpl; tauto|]).
    destruct Hin. }
  split; [exact Hdb2|reflexivity].
Qed.

Lemma add_assessment_rows session_id answers result score suggested db row db' :
  add_assessment session_id answers result score suggested db = Some (row, db') ->
  disorders db' = disorders db /\ remedies db' = remedies db /\
  assessments db' = (assessments db ++ [row])%list /\ questions db' = questions db /\
  Assessment.session_id row = session_id /\ Assessment.answers row = answers /\
  Assessment.id row = next_id (map Assessment.id (assessments db)).
Proof.
  unfold add_assessment. destruct (existsb _ _); [discriminate|].
  intros H. injection H as <- <-. simpl. repeat split.
Qed.

Lemma add_assessment_references session_id answers result score suggested db row db' :
  add_assessment session_id answers result score suggested db = Some (row, db') ->
  remedies_reference_disorders db -> remedies_reference_disorders db'.
Proof.
  intros H Hdb r Hr. apply add_assessment_rows in H as (Hd & Hrem & _).
  rewrite Hrem in Hr. rewrite Hd. auto.
Qed.

Lemma set_assessment_references existing session_id answers result score suggested db db' :
  set_assessment existing session_id answers result score suggested db = Some db' ->
  remedies_reference_disorders db -> remedies_reference_disorders db'.
Proof.
  unfold set_assessment; cbv zeta. destruct (existsb _ _); [discriminate|].
  intros H Hdb. injection H as <-. exact Hdb.
Qed.

Lemma serve_references req db :
  remedies_reference_disorders db -> remedies_reference_disorders (serve req db).
Proof.
  intros Hdb.
  destruct req; try exact Hdb; try apply seed_initial_data_references, Hdb;
    cbn [serve];
    unfold Simple.create_disorder, Simple.get_disorder, Simple.update_disorder,
      Simple.delete_disorder, Simple.create_assessment, Simple.get_assessment,
      Simple.update_assessment, Simple.delete_assessment, Api.create_assessment,
      Api.get_assessment, Api.get_disorder, Api.get_remedy;
    cbv zeta; handler_cases; cbn [snd]; try exact Hdb;
    eauto using add_disorder_references, set_disorder_references,
      delete_disorder_row_references, add_assessment_references,
      set_assessment_references.
Qed.

Lemma reachable_references db : reachable db -> remedies_reference_disorders db.
Proof.
  induction 1 as [|req db _ IH]; [intros r []|apply serve_references, IH].
Qed.

(** ** Submitting an assessment *)

(** C2. A submission with no answers or fewer than 5 is refused with status
    400 and the store is the same afterwards: no assessment row is created. *)
Theorem create_assessment_too_few_answers uuid4 assessment db :
  (List.length (Api.AssessmentRequest.answers assessment) < 5)%nat ->
  (exists detail,
     Api.create_assessment uuid4 assessment db = (HTTPException 400 detail, db)) /\
  assessments (snd (Api.create_assessment uuid4 assessment db)) = assessments db.
Proof.
  intros Hlen. unfold Api.create_assessment; cbv zeta.
  destruct (Api.AssessmentRequest.answers assessment) as [|answer answers] eqn:E.
  - split; [eexists|]; reflexivity.
  - destruct (Z.ltb_spec (Z.of_nat (List.length (answer :: answers))) 5) as [_|Hge].
    + split; [eexists|]; reflexivity.
    + lia.
Qed.

Lemma create_assessment_too_few_answers_witness :
  (exists detail,
     Api.create_assessment "0f8fad5b-d9cb-469f-a165-70867728950e"
       (Api.AssessmentRequest.mk ["yes"; "no"; "yes"; "yes"]) seeded_store
     = (HTTPException 400 detail, seeded_store)) /\
  assessments
    (snd (Api.create_assessment "0f8fad5b-d9cb-469f-a165-70867728950e"
            (Api.AssessmentRequest.mk ["yes"; "no"; "yes"; "yes"]) seeded_store))
  = assessments seeded_store.
Proof.
  apply (create_assessment_too_few_answers "0f8fad5b-d9cb-469f-a165-70867728950e"
           (Api.AssessmentRequest.mk ["yes"; "no"; "yes"; "yes"]) seeded_store).
  simpl. lia.
Defined.

(** ** Creating a disorder *)

Lemma existsb_find {A : Type} (p : A -> bool) (l : list A) :
  existsb p l = match find p l with Some _ => true | None => false end.
Proof.
  induction l as [|x l IH]; simpl; [reflexivity|]. destruct (p x); auto.
Qed.

Lemma find_name_iff (name : string) (rows : list Disorder.t) :
  (exists d, find (fun d => Disorder.name d =? name)%string rows = Some d) <->
  In name (map Disorder.name rows).
Proof.
  split.
  - intros [d H]. apply find_some in H as [Hd E]. apply String.eqb_eq in E.
    rewrite <- E. apply in_map. exact Hd.
  - intros H. destruct (find _ rows) as [d|] eqn:E; [eauto|].
    exfalso. revert H.
    apply (existsb_absent Disorder.name String.eqb); [apply String.eqb_eq|].
    rewrite existsb_find, E. reflexivity.
Qed.


(** What POST /disorder does, by whether the name is stored. *)
Lemma create_disorder_cases disorder db :
  (In (Simple.DisorderSchema.name disorder) (map Disorder.name (disorders db)) /\
   Simple.create_disorder disorder db = (Ok "Disorder already exists", db)) \/
  (~ In (Simple.DisorderSchema.name disorder) (map Disorder.name (disorders db)) /\
   exists row db',
     Simple.create_disorder disorder db = (Ok "Disorder created successfully", db') /\
     disorders db' = (disorders db ++ [row])%list /\
     Disorder.name row = Simple.DisorderSchema.name disorder).
Proof.
  unfold Simple.create_disorder; cbv zeta.
  destruct (find _ (disorders db)) as [d|] eqn:E.
  - left. split; [|reflexivity]. apply find_name_iff. eauto.
  - right.
    assert (~ In (Simple.DisorderSchema.name disorder) (map Disorder.name (disorders db)))
      as Hnew.
    { intros H. apply find_name_iff in H as [d H]. congruence. }
    split; [exact Hnew|].
    destruct (add_disorder _ _ _ db) as [[row db']|] eqn:Eadd.
    + apply add_disorder_rows in Eadd as (Hd & _ & _ & _ & Hname). eauto.
    + unfold add_disorder in Eadd. rewrite existsb_find, E in Eadd. discriminate.
Qed.



(** C9. The duplicate check of POST /disorder is exact string equality: the
    no-op is taken when a stored name equals the requested one character by
    character, and after "Depression" a request for "depression" inserts a
    second row. *)
Theorem create_disorder_case_sensitive :
  (forall disorder db,
     fst (Simple.create_disorder disorder db) = Ok "Disorder already exists" <->
     In (Simple.DisorderSchema.name disorder) (map Disorder.name (disorders db))) /\
  eq_ignore_case (Simple.DisorderSchema.name depression)
    (Simple.DisorderSchema.name depression_lower_case) = true /\
  fst (Simple.create_disorder depression empty_store)
    = Ok "Disorder created successfully" /\
  fst (Simple.create_disorder depression_lower_case
         (snd (Simple.create_disorder depression empty_store)))
    = Ok "Disorder created successfully" /\
  map Disorder.name
    (disorders (snd (Simple.create_disorder depression_lower_case
                       (snd (Simple.create_disorder depression empty_store)))))
    = ["Depression"; "depression"].
Proof.
  split; [|repeat split; reflexivity].
  intros disorder db.
  destruct (create_disorder_cases disorder db) as [[Hin H]|[Hnew (row & db' & H & _)]];
    rewrite H; simpl; split; intros H'; try tauto; discriminate.
Qed.

(** ** Lookups by id *)

Lemma find_id_absent {Row : Type} (key : Row -> Z) (rows : list Row) (id : Z) :
  ~ In id (map key rows) -> find (fun r => key r =? id) rows = None.
Proof. apply (find_absent key Z.eqb). apply Z.eqb_eq. Qed.

Lemma find_id_stored {Row : Type} (key : Row -> Z) (rows : list Row) (row : Row) :
  NoDup (map key rows) -> In row rows ->
  find (fun r => key r =? key row) rows = Some row.
Proof. apply (find_unique key Z.eqb). apply Z.eqb_eq. Qed.

(** Two stored rows of the same key are one row. *)
Lemma same_key_same_row {Row : Type} (key : Row -> Z) (rows : list Row) (r1 r2 : Row) :
  NoDup (map key rows) -> In r1 rows -> In r2 rows -> key r1 = key r2 -> r1 = r2.
Proof.
  intros Hnd H1 H2 E. pose proof (find_id_stored key rows r1 Hnd H1) as F1.
  pose proof (find_id_stored key rows r2 Hnd H2) as F2.
  rewrite E in F1. congruence.
Qed.

(** C8, as the code has it.  A lookup, an update or a delete by an id that
    is not stored answers 404 with a message when the id is an integer the
    driver can bind (a signed 64-bit one), and ends as an uncaught server
    error when it is not; a lookup by a session id that is not stored answers
    404; in each case the store is left as it was.  This holds for disorders,
    assessments and remedies, in both surfaces.  A lookup by a stored id
    returns the row of that id. *)
Theorem not_found_or_the_row db :
  (forall id, ~ In id (map Disorder.id (disorders db)) ->
     (sqlite_integer id = true ->
      Simple.get_disorder id db = (HTTPException 404 "Disorder not found", db) /\
      (forall body,
         Simple.update_disorder id body db
           = (HTTPException 404 "Disorder not found", db)) /\
      Simple.delete_disorder id db = (HTTPException 404 "Disorder not found", db) /\
      Api.get_disorder id db = (HTTPException 404 "Disorder not found", db)) /\
     (sqlite_integer id = false ->
      Simple.get_disorder id db = (InternalServerError, db) /\
      (forall body, Simple.update_disorder id body db = (InternalServerError, db)) /\
      Simple.delete_disorder id db = (InternalServerError, db) /\
      Api.get_disorder id db = (InternalServerError, db))) /\
  (forall id, ~ In id (map Assessment.id (assessments db)) ->
     (sqlite_integer id = true ->
      Simple.get_assessment id db = (HTTPException 404 "Assessment not found", db) /\
      (forall body,
         Simple.update_assessment id body db
           = (HTTPException 404 "Assessment not found", db)) /\
      Simple.delete_assessment id db
        = (HTTPException 404 "Assessment not found", db)) /\
     (sqlite_integer id = false ->
      Simple.get_assessment id db = (InternalServerError, db) /\
      (forall body, Simple.update_assessment id body db = (InternalServerError, db)) /\
      Simple.delete_assessment id db = (InternalServerError, db))) /\
  (forall session_id, ~ In session_id (map Assessment.session_id (assessments db)) ->
     Api.get_assessment session_id db = (HTTPException 404 "Assessment not found", db)) /\
  (forall id, ~ In id (map Remedy.id (remedies db)) ->
     (sqlite_integer id = true ->
      Api.get_remedy id db = (HTTPException 404 "Remedy not found", db)) /\
     (sqlite_integer id = false ->
      Api.get_remedy id db = (InternalServerError, db))) /\
  (integrity db ->
     (forall d, In d (disorders db) ->
        Simple.get_disorder (Disorder.id d) db = (Ok d, db) /\
        Api.get_disorder (Disorder.id d) db = (Ok (Api.disorder_response d db), db)) /\
     (forall a, In a (assessments db) ->
        Simple.get_assessment (Assessment.id a) db = (Ok a, db) /\
        Api.get_assessment (Assessment.session_id a) db = (Ok a, db)) /\
     (forall r, In r (remedies db) ->
        Api.get_remedy (Remedy.id r) db = (Ok (Api.remedy_response r), db))).
Proof.
  repeat apply conj.
  - intros id Hid. apply (find_id_absent Disorder.id) in Hid.
    unfold Simple.get_disorder, Simple.update_disorder, Simple.delete_disorder,
      Api.get_disorder. rewrite Hid. split; intros ->; auto.
  - intros id Hid. apply (find_id_absent Assessment.id) in Hid.
    unfold Simple.get_assessment, Simple.update_assessment, Simple.delete_assessment.
    rewrite Hid. split; intros ->; auto.
  - intros session_id Hid.
    apply (find_absent Assessment.session_id String.eqb) in Hid; [|apply String.eqb_eq].
    unfold Api.get_assessment. rewrite Hid. reflexivity.
  - intros id Hid. apply (find_id_absent Remedy.id) in Hid.
    unfold Api.get_remedy. rewrite Hid. split; intros ->; reflexivity.
  - intros [H1 H2 H3 H4 H5 H6]. repeat apply conj.
    + intros d Hd. unfold Simple.get_disorder, Api.get_disorder.
      rewrite (find_id_stored Disorder.id) by assumption. auto.
    + intros a Ha. unfold Simple.get_assessment, Api.get_assessment.
      rewrite (find_id_stored Assessment.id) by assumption.
      rewrite (find_unique Assessment.session_id String.eqb)
        by (assumption || apply String.eqb_eq).
      auto.
    + intros r Hr. unfold Api.get_remedy.
      rewrite (find_id_stored Remedy.id) by assumption. reflexivity.
Qed.

(** C8 as the specification words it fails: the id 2^63 is not stored, and
    the lookup, the update and the delete of a disorder by it end as a server
    error, not as 404. *)
Lemma not_found_out_of_range :
  ~ In (2 ^ 63) (map Disorder.id (disorders seeded_store)) /\
  Simple.get_disorder (2 ^ 63) seeded_store = (InternalServerError, seeded_store) /\
  Simple.update_disorder (2 ^ 63) depression seeded_store
    = (InternalServerError, seeded_store) /\
  Simple.delete_disorder (2 ^ 63) seeded_store = (InternalServerError, seeded_store) /\
  Api.get_remedy (2 ^ 63) seeded_store = (InternalServerError, seeded_store) /\
  Simple.get_disorder (2 ^ 63) seeded_store
    <> (HTTPException 404 "Disorder not found", seeded_store).
Proof.
  split; [vm_compute; intuition discriminate|].
  repeat (split; [reflexivity|]). discriminate.
Qed.

(** ** Deleting a disorder *)

(** The keys of the remedies the cascade deletes are no longer stored. *)
Lemma delete_disorder_row_cascade disorder db r :
  In r (remedies db) -> Remedy.disorder_id r = Disorder.id disorder ->
  ~ In (Remedy.id r) (map Remedy.id (remedies (delete_disorder_row disorder db))).
Proof.
  intros Hr E Hin. apply in_map_iff in Hin as (r' & Eid & Hr').
  simpl in Hr'. apply filter_In in Hr' as [_ Hex].
  apply negb_true_iff in Hex.
  assert (existsb (fun r0 => Remedy.id r' =? Remedy.id r0)
            (filter (fun r0 => Remedy.disorder_id r0 =? Disorder.id disorder)
               (remedies db)) = true) as Ht; [|congruence].
  apply existsb_exists. exists r. split; [|apply Z.eqb_eq, Eid].
  apply filter_In. split; [exact Hr|]. apply Z.eqb_eq. exact E.
Qed.

Lemma sqlite_integer_iff (z : Z) :
  sqlite_integer z = true <-> - 9223372036854775808 <= z < 9223372036854775808.
Proof.
  unfold sqlite_integer. rewrite andb_true_iff, Z.leb_le, Z.ltb_lt.
  change (2 ^ 63) with 9223372036854775808. reflexivity.
Qed.

(** A request other than the seeding adds no remedy. *)
Lemma serve_remedies_kept req db :
  req <> PostApiSeedData ->
  forall r, In r (remedies (serve req db)) -> In r (remedies db).
Proof.
  intros Hreq.
  destruct req; try congruence; try (intros r Hr; exact Hr); cbn [serve];
    unfold Simple.create_disorder, Simple.get_disorder, Simple.update_disorder,
      Simple.delete_disorder, Simple.create_assessment, Simple.get_assessment,
      Simple.update_assessment, Simple.delete_assessment, Api.create_assessment,
      Api.get_assessment, Api.get_disorder, Api.get_remedy;
    cbv zeta; handler_cases; cbn [snd]; try (intros r Hr; exact Hr);
    repeat match goal with
           | H : add_disorder _ _ _ _ = Some _ |- _ =>
               apply add_disorder_rows in H; destruct H as (_ & H & _)
           | H : add_assessment _ _ _ _ _ _ = Some _ |- _ =>
               apply add_assessment_rows in H; destruct H as (_ & H & _)
           | H : set_disorder _ _ _ _ _ = Some _ |- _ =>
               unfold set_disorder in H; cbv zeta in H;
               destruct (existsb _ _); [discriminate|]; injection H as <-
           | H : set_assessment _ _ _ _ _ _ _ = Some _ |- _ =>
               unfold set_assessment in H; cbv zeta in H;
               destruct (existsb _ _); [discriminate|]; injection H as <-
           end;
    intros r Hr; try (simpl in Hr; congruence).
  apply delete_disorder_row_remaining in Hr. tauto.
Qed.

(** The seeding numbers the remedies of a store without remedies 1 to 9. *)
Lemma seed_initial_data_remedy_ids db :
  (disorders db = [] -> remedies db = []) ->
  (forall r, In r (remedies db) -> 1 <= Remedy.id r <= 9) ->
  forall r, In r (remedies (snd (Api.seed_initial_data db))) -> 1 <= Remedy.id r <= 9.
Proof.
  intros Hempty Hdb. unfold Api.seed_initial_data, add_disorder; cbv zeta.
  destruct (disorders db) as [|d ds] eqn:Ed; [|exact Hdb].
  cbn -[fold_left Api.remedies_data Api.questions_data].
  rewrite (Hempty eq_refl).
  apply (fold_left_preserves
           (fun a => forall r, In r (remedies a) -> 1 <= Remedy.id r <= 9)).
  { intros a [[[text category] weight] order_index] _ Ha. exact Ha. }
  intros r Hr. vm_compute in Hr.
  repeat (destruct Hr as [<-|Hr]; [simpl; lia|]). destruct Hr.
Qed.

(** Remedies come from the seeding of a store without disorders, which has
    no remedies either: their ids stay among 1 to 9. *)
Lemma reachable_remedy_ids db :
  reachable db -> forall r, In r (remedies db) -> 1 <= Remedy.id r <= 9.
Proof.
  induction 1 as [|req db Hdb IH]; [intros r []|].
  destruct req;
    try (intros r Hr; apply IH; revert r Hr; apply serve_remedies_kept; discriminate).
  apply seed_initial_data_remedy_ids; [|exact IH].
  intros Hnone. pose proof (reachable_references db Hdb) as Hrefs.
  destruct (remedies db) as [|r rs] eqn:Er; [reflexivity|].
  assert (In r (remedies db)) as Hr by (rewrite Er; left; reflexivity).
  specialize (Hrefs r Hr). rewrite Hnone in Hrefs. destruct Hrefs.
Qed.

(** C4. In a store reached by any sequence of requests every remedy
    references a stored disorder, and so it does after one more request of
    any kind; DELETE /disorder/{id} on a stored disorder removes the disorder
    and every remedy that references it, and a lookup of such a remedy by its
    id then answers 404. *)
Theorem delete_disorder_cascades db :
  reachable db ->
  remedies_reference_disorders db /\
  (forall req, remedies_reference_disorders (serve req db)) /\
  (forall d, In d (disorders db) ->
     exists db',
       Simple.delete_disorder (Disorder.id d) db
         = (Ok "Disorder deleted successfully", db') /\
       ~ In (Disorder.id d) (map Disorder.id (disorders db')) /\
       forall r, In r (remedies db) -> Remedy.disorder_id r = Disorder.id d ->
         ~ In r (remedies db') /\
         Api.get_remedy (Remedy.id r) db' = (HTTPException 404 "Remedy not found", db')).
Proof.
  intros Hdb. pose proof (reachable_references db Hdb) as Hrefs.
  pose proof (reachable_integrity db Hdb) as [Hids _ _ _ _ _].
  split; [exact Hrefs|]. split; [intros req; apply serve_references, Hrefs|].
  intros d Hd. exists (delete_disorder_row d db).
  unfold Simple.delete_disorder. rewrite (find_id_stored Disorder.id) by assumption.
  split; [reflexivity|]. split.
  - simpl. intros Hin. apply in_map_iff in Hin as (d' & E & Hd').
    apply filter_In in Hd' as [_ Hne]. apply negb_true_iff, Z.eqb_neq in Hne. auto.
  - intros r Hr E. pose proof (delete_disorder_row_cascade d db r Hr E) as Hgone.
    split.
    + intros Hin. apply Hgone, in_map, Hin.
    + unfold Api.get_remedy. rewrite (find_id_absent Remedy.id) by exact Hgone.
      rewrite (proj2 (sqlite_integer_iff (Remedy.id r))); [reflexivity|].
      pose proof (reachable_remedy_ids db Hdb r Hr). lia.
Qed.

Lemma delete_disorder_cascades_witness :
  exists db',
    Simple.delete_disorder 2 seeded_store = (Ok "Disorder deleted successfully", db') /\
    map Remedy.id (remedies db') = [1; 2; 3; 7; 8; 9] /\
    Api.get_remedy 5 db' = (HTTPException 404 "Remedy not found", db').
Proof.
  assert (reachable seeded_store) as Hreach by apply reachable_serve, reachable_empty.
  destruct (delete_disorder_cascades seeded_store Hreach) as (_ & _ & Hdel).
  destruct (Hdel (Disorder.mk 2 "Anxiety Disorder"
                    "Excessive worry, fear, or anxiety that interferes with daily activities and is difficult to control."
                    (Some "Excessive worry, restlessness, fatigue, difficulty concentrating, irritability, muscle tension, sleep problems")))
    as (db' & Hdb' & _ & Hrem).
  { vm_compute. tauto. }
  exists db'. split; [exact Hdb'|]. split.
  - vm_compute in Hdb'. injection Hdb' as <-. reflexivity.
  - apply (Hrem (Remedy.mk 5 2 "Mindfulness Meditation"
                   "Practice focusing on the present moment to reduce worry."
                   (Some "lifestyle"))).
    + vm_compute. tauto.
    + reflexivity.
Defined.

(** ** Reading an assessment back *)





(** ** Listing the questions *)

Lemma StronglySorted_order_index (rows : list Question.t) :
  StronglySorted (fun q1 q2 => is_true (QuestionOrder.leb q1 q2)) rows ->
  StronglySorted (fun q1 q2 => Question.order_index q1 <= Question.order_index q2) rows.
Proof.
  induction 1 as [|q rows _ IH Hq]; constructor; [exact IH|].
  eapply Forall_impl; [|exact Hq]. intros q' H. apply Z.leb_le. exact H.
Qed.

Example get_questions_skips_inactive :
  fst (Api.get_questions
         {| disorders := []; remedies := []; assessments := [];
            questions := [ Question.mk 1 "c" None 1 3 1;
                           Question.mk 2 "a" None 1 1 0;
                           Question.mk 3 "b" None 1 2 1;
                           Question.mk 4 "d" None 1 4 1 ] |})
  = Ok [ Api.QuestionResponse.mk 3 "b" None;
         Api.QuestionResponse.mk 1 "c" None;
         Api.QuestionResponse.mk 4 "d" None ].
Proof. reflexivity. Qed.

Example get_questions_seeded :
  exists body,
    fst (Api.get_questions seeded_store) = Ok body /\
    map Api.QuestionResponse.id body = [1; 2; 3; 4; 5].
Proof. eexists. split; reflexivity. Qed.

(** C7. GET /api/questions returns the questions whose [is_active] is 1, each
    once per stored row and no other, by ascending [order_index]. *)
Theorem get_questions_active_in_order db :
  exists rows,
    Api.get_questions db = (Ok (map Api.question_response rows), db) /\
    Permutation rows (filter (fun q => Question.is_active q =? 1) (questions db)) /\
    (forall q, In q rows <-> In q (questions db) /\ Question.is_active q = 1) /\
    StronglySorted (fun q1 q2 => Question.order_index q1 <= Question.order_index q2) rows.
Proof.
  exists (QuestionSort.sort (filter (fun q => Question.is_active q =? 1) (questions db))).
  pose proof (QuestionSort.Permuted_sort
                (filter (fun q => Question.is_active q =? 1) (questions db))) as Hperm.
  split; [reflexivity|]. split; [symmetry; exact Hperm|]. split.
  - intros q. rewrite <- (Z.eqb_eq (Question.is_active q) 1).
    rewrite <- (filter_In (fun q => Question.is_active q =? 1) q (questions db)).
    split; intros H.
    + eapply Permutation_in; [symmetry; exact Hperm|exact H].
    + eapply Permutation_in; [exact Hperm|exact H].
  - apply StronglySorted_order_index, QuestionSort.StronglySorted_sort.
    intros q1 q2 q3. unfold QuestionOrder.leb, is_true. rewrite !Z.leb_le. lia.
Qed.

(** ** Session ids *)

Lemma seed_initial_data_assessments db :
  assessments (snd (Api.seed_initial_data db)) = assessments db.
Proof.
  unfold Api.seed_initial_data; cbv zeta.
  destruct (_ >? 0); [reflexivity|].
  destruct (add_disorder "Depression" _ _ db) as [[d0 db0]|] eqn:E0; [|reflexivity].
  destruct (add_disorder "Anxiety Disorder" _ _ db0) as [[d1 db1]|] eqn:E1; [|reflexivity].
  destruct (add_disorder "Bipolar Disorder" _ _ db1) as [[d2 db2]|] eqn:E2; [|reflexivity].
  cbn [snd].
  apply (fold_left_preserves (fun a => assessments a = assessments db)).
  { intros a [[[text category] weight] order_index] _ Ha. exact Ha. }
  apply (fold_left_preserves (fun a => assessments a = assessments db)).
  { intros a [[[disorder_id title] description] category] _ Ha. exact Ha. }
  apply add_disorder_rows in E0 as (_ & _ & H0 & _), E1 as (_ & _ & H1 & _),
    E2 as (_ & _ & H2 & _).
  congruence.
Qed.

Lemma set_disorder_assessments existing name description symptoms db db' :
  set_disorder existing name description symptoms db = Some db' ->
  assessments db' = assessments db.
Proof.
  unfold set_disorder; cbv zeta. destruct (existsb _ _); [discriminate|].
  intros H. injection H as <-. reflexivity.
Qed.

(** A request other than PATCH /assessment/{id} keeps the assessment rows,
    appends one under a new key, or removes some. *)
Lemma serve_assessments req db :
  (forall id body, req <> PatchAssessment id body) ->
  assessments (serve req db) = assessments db \/
  (exists row, assessments (serve req db) = (assessments db ++ [row])%list /\
               Assessment.id row = next_id (map Assessment.id (assessments db))) \/
  (exists keep, assessments (serve req db) = filter keep (assessments db)).
Proof.
  intros Hreq.
  destruct req; try (left; reflexivity);
    try (left; apply seed_initial_data_assessments);
    try (exfalso; eapply Hreq; reflexivity);
    cbn [serve];
    unfold Simple.create_disorder, Simple.get_disorder, Simple.update_disorder,
      Simple.delete_disorder, Simple.create_assessment, Simple.get_assessment,
      Simple.delete_assessment, Api.create_assessment,
      Api.get_assessment, Api.get_disorder, Api.get_remedy;
    cbv zeta; handler_cases; cbn [snd]; try (left; reflexivity);
    try (right; right; eexists; reflexivity).
  - left. match goal with H : add_disorder _ _ _ _ = _ |- _ =>
            apply add_disorder_rows in H as (_ & _ & H & _); exact H end.
  - left. eapply set_disorder_assessments; eauto.
  - right; left. match goal with H : add_assessment _ _ _ _ _ _ = _ |- _ =>
      apply add_assessment_rows in H as (_ & _ & H & _ & _ & _ & Hid) end. eauto.
  - right; left. match goal with H : add_assessment _ _ _ _ _ _ = _ |- _ =>
      apply add_assessment_rows in H as (_ & _ & H & _ & _ & _ & Hid) end. eauto.
Qed.

Lemma update_assessment_session_id id body db db' a' :
  Simple.update_assessment id body db = (Ok "Assessment updated successfully", db') ->
  In a' (assessments db') -> Assessment.id a' = id ->
  Assessment.session_id a' = Simple.AssessmentSchema.session_id body.
Proof.
  unfold Simple.update_assessment.
  destruct (find _ _) as [existing|] eqn:Efind;
    [|destruct (sqlite_integer id); discriminate].
  apply find_some in Efind as [_ Eid]. apply Z.eqb_eq in Eid.
  destruct (sqlite_integer _); [|discriminate].
  unfold set_assessment; cbv zeta. destruct (existsb _ _); [discriminate|].
  intros H Ha' E. injection H as <-. simpl in Ha'.
  apply in_map_iff in Ha' as (a & <- & Ha). subst id. revert E.
  destruct (Z.eqb_spec (Assessment.id a) (Assessment.id existing)) as [_|Hne];
    [reflexivity|contradiction].
Qed.

(** C5, as the code has it.  In a reachable store no two assessments share a
    session id, and every request other than PATCH /assessment/{id} leaves
    each stored assessment its session id; PATCH /assessment/{id}, when it
    succeeds, gives the assessment of that id the session id of its body. *)
Theorem session_id_unique_and_kept db :
  reachable db ->
  NoDup (map Assessment.session_id (assessments db)) /\
  (forall req, (forall id body, req <> PatchAssessment id body) ->
     keeps_session_ids req db) /\
  (forall id body db' a',
     Simple.update_assessment id body db = (Ok "Assessment updated successfully", db') ->
     In a' (assessments db') -> Assessment.id a' = id ->
     Assessment.session_id a' = Simple.AssessmentSchema.session_id body).
Proof.
  intros Hdb. pose proof (reachable_integrity db Hdb) as [_ _ Hids _ _ Hsids].
  split; [exact Hsids|]. split; [|intros; eapply update_assessment_session_id; eauto].
  intros req Hreq a a' Ha Ha' E.
  assert (In a' (assessments db)) as Hold.
  { destruct (serve_assessments req db Hreq) as [H|[(row & H & Hid)|(keep & H)]];
      rewrite H in Ha'.
    - exact Ha'.
    - apply in_app_or in Ha' as [Ha'|[<-|[]]]; [exact Ha'|].
      exfalso. apply (next_id_fresh (map Assessment.id (assessments db))).
      rewrite <- Hid, E. apply in_map. exact Ha.
    - apply filter_In in Ha'. tauto. }
  f_equal. apply (same_key_same_row Assessment.id (assessments db)); assumption.
Qed.

Lemma session_id_unique_and_kept_witness :
  NoDup (map Assessment.session_id (assessments one_assessment_store)) /\
  keeps_session_ids (PostAssessment session456) one_assessment_store.
Proof.
  assert (reachable one_assessment_store) as Hreach
    by apply reachable_serve, reachable_empty.
  destruct (session_id_unique_and_kept one_assessment_store Hreach) as (Hsids & Hkept & _).
  split; [exact Hsids|]. apply Hkept. intros id body. discriminate.
Defined.

(** C5 as the specification words it fails: PATCH /assessment/{id} with
    another session id in its body changes the session id of the stored
    assessment 1 from "session123" to "session456". *)
Lemma update_assessment_changes_session_id :
  reachable one_assessment_store /\
  map (fun a => (Assessment.id a, Assessment.session_id a))
    (assessments one_assessment_store) = [(1, "session123")] /\
  fst (Simple.update_assessment 1 session456 one_assessment_store)
    = Ok "Assessment updated successfully" /\
  map (fun a => (Assessment.id a, Assessment.session_id a))
    (assessments (serve (PatchAssessment 1 session456) one_assessment_store))
    = [(1, "session456")] /\
  ~ keeps_session_ids (PatchAssessment 1 session456) one_assessment_store.
Proof.
  split; [apply reachable_serve, reachable_empty|].
  repeat (split; [reflexivity|]).
  intros Hkept.
  specialize (Hkept
    (Assessment.mk 1 "session123" (JsonStr "yes,no,yes") "medium" 3 (Some [1]))
    (Assessment.mk 1 "session456" (JsonStr "yes,no,yes") "medium" 3 (Some [1]))).
  simpl in Hkept. discriminate Hkept; auto.
Qed.

(** * Further properties of the handlers *)

(** ** The score does not depend on the order of the answers *)

Lemma count_yes_app (answers more : list string) :
  count_yes (answers ++ more) = (count_yes answers + count_yes more)%nat.
Proof. unfold count_yes. rewrite filter_app. apply length_app. Qed.

Lemma count_yes_permutation (answers answers' : list string) :
  Permutation answers answers' -> count_yes answers = count_yes answers'.
Proof.
  unfold count_yes. induction 1 as [|a l l' _ IH|a b l|l l' l'' _ IH1 _ IH2]; simpl.
  - reflexivity.
  - destruct (eq_ignore_case a "yes"); simpl; congruence.
  - destruct (eq_ignore_case a "yes"), (eq_ignore_case b "yes"); reflexivity.
  - congruence.
Qed.

(** X1. The result of the scoring function is the same for any two orders
    of the same answers. *)
Theorem calculate_assessment_result_permutation (answers answers' : list string) :
  Permutation answers answers' ->
  calculate_assessment_result answers = calculate_assessment_result answers'.
Proof.
  intros H. rewrite !calculate_assessment_result_cases; cbv zeta.
  rewrite (count_yes_permutation answers answers' H). reflexivity.
Qed.

Lemma calculate_assessment_result_permutation_witness :
  calculate_assessment_result ["yes"; "no"; "Yes"; "unsure"; "no"]
  = calculate_assessment_result ["no"; "unsure"; "no"; "Yes"; "yes"].
Proof.
  apply calculate_assessment_result_permutation.
  apply (Permutation_trans (l' := ["no"; "yes"; "Yes"; "unsure"; "no"]));
    [apply perm_swap|].
  apply perm_skip.
  apply (Permutation_trans (l' := ["yes"; "unsure"; "Yes"; "no"]));
    [apply perm_skip, perm_swap|].
  apply (Permutation_trans (l' := ["unsure"; "yes"; "Yes"; "no"])); [apply perm_swap|].
  apply perm_skip.
  apply (Permutation_trans (l' := ["yes"; "no"; "Yes"]));
    [apply perm_skip, perm_swap|].
  apply (Permutation_trans (l' := ["no"; "yes"; "Yes"])); [apply perm_swap|].
  apply perm_skip, perm_swap.
Defined.

(** X2. The score of two lists of answers put together is the sum of their
    scores, so further answers never lower the tier: "high" stays "high", and
    a list that is "low" with them was "low" without. *)
Theorem calculate_assessment_result_app (answers more : list string) :
  ResultData.severity_score (calculate_assessment_result (answers ++ more))
    = ResultData.severity_score (calculate_assessment_result answers)
      + ResultData.severity_score (calculate_assessment_result more) /\
  (ResultData.severity (calculate_assessment_result answers) = "high" ->
   ResultData.severity (calculate_assessment_result (answers ++ more)) = "high") /\
  (ResultData.severity (calculate_assessment_result (answers ++ more)) = "low" ->
   ResultData.severity (calculate_assessment_result answers) = "low").
Proof.
  rewrite !calculate_assessment_result_cases; cbv zeta. rewrite count_yes_app.
  destruct (Z.geb_spec (Z.of_nat (count_yes answers + count_yes more)) 4),
           (Z.geb_spec (Z.of_nat (count_yes answers + count_yes more)) 2),
           (Z.geb_spec (Z.of_nat (count_yes answers)) 4),
           (Z.geb_spec (Z.of_nat (count_yes answers)) 2),
           (Z.geb_spec (Z.of_nat (count_yes more)) 4),
           (Z.geb_spec (Z.of_nat (count_yes more)) 2);
    cbn [ResultData.severity_score ResultData.severity];
    repeat split; intros; try reflexivity; try discriminate; lia.
Qed.

(** ** What a request leaves untouched *)

Lemma set_disorder_rows existing name description symptoms db db' :
  set_disorder existing name description symptoms db = Some db' ->
  remedies db' = remedies db /\ assessments db' = assessments db /\
  questions db' = questions db /\
  map Disorder.id (disorders db') = map Disorder.id (disorders db).
Proof.
  unfold set_disorder; cbv zeta. destruct (existsb _ _); [discriminate|].
  intros H. injection H as <-. simpl. repeat split.
  rewrite (map_key_update Disorder.id); reflexivity.
Qed.

Lemma set_assessment_rows existing session_id answers result score suggested db db' :
  set_assessment existing session_id answers result score suggested db = Some db' ->
  disorders db' = disorders db /\ remedies db' = remedies db /\
  questions db' = questions db /\
  map Assessment.id (assessments db') = map Assessment.id (assessments db).
Proof.
  unfold set_assessment; cbv zeta. destruct (existsb _ _); [discriminate|].
  intros H. injection H as <-. simpl. repeat split.
  rewrite (map_key_update Assessment.id); reflexivity.
Qed.

(** Names the rows a successful write of the session produced. *)
Ltac written_rows :=
  repeat match goal with
         | H : add_disorder _ _ _ _ = Some _ |- _ =>
             apply add_disorder_rows in H; destruct H as (? & ? & ? & ? & ?)
         | H : add_assessment _ _ _ _ _ _ = Some _ |- _ =>
             apply add_assessment_rows in H; destruct H as (? & ? & ? & ? & ? & ? & ?)
         | H : set_disorder _ _ _ _ _ = Some _ |- _ =>
             apply set_disorder_rows in H; destruct H as (? & ? & ? & ?)
         | H : set_assessment _ _ _ _ _ _ _ = Some _ |- _ =>
             apply set_assessment_rows in H; destruct H as (? & ? & ? & ?)
         end.

Ltac unfold_handlers :=
  cbn [serve];
  unfold Simple.create_disorder, Simple.get_disorders, Simple.get_disorder,
    Simple.update_disorder, Simple.delete_disorder, Simple.create_assessment,
    Simple.get_assessments, Simple.get_assessment, Simple.update_assessment,
    Simple.delete_assessment, Api.create_assessment, Api.get_assessment,
    Api.get_disorders, Api.get_disorder, Api.get_questions, Api.get_remedies,
    Api.get_remedy;
  cbv zeta.

Lemma filter_subset {A : Type} (keep : A -> bool) (l : list A) (x : A) :
  In x (filter keep l) -> In x l.
Proof. intros H. apply filter_In in H. tauto. Qed.

(** X3. Each request writes its own tables only: the disorder requests and
    the seeding leave the assessments as they are, the assessment requests
    leave disorders, remedies and questions as they are, and every GET leaves
    the store as it is; no request but the seeding adds a question or a
    remedy. *)
Theorem serve_frame req db :
  match req with
  | PostDisorder _ | PatchDisorder _ _ | DeleteDisorder _ | PostApiSeedData =>
      assessments (serve req db) = assessments db
  | PostAssessment _ | PatchAssessment _ _ | DeleteAssessment _
  | PostApiAssessments _ _ =>
      disorders (serve req db) = disorders db /\
      remedies (serve req db) = remedies db /\
      questions (serve req db) = questions db
  | _ => serve req db = db
  end /\
  (req <> PostApiSeedData ->
   questions (serve req db) = questions db /\
   forall r, In r (remedies (serve req db)) -> In r (remedies db)).
Proof.
  split.
  - destruct req; try apply seed_initial_data_assessments; unfold_handlers;
      handler_cases; cbn [snd]; written_rows; auto.
  - intros Hreq. destruct req; try congruence; unfold_handlers;
      handler_cases; cbn [snd]; written_rows; simpl;
      split; try congruence; try tauto;
      try (intros r Hr; congruence).
    intros r Hr. eapply filter_subset, Hr.
Qed.

(** ** Invariants of the reachable stores *)

(** X4. In every store reached from the empty one no two rows of a table
    share an id, no two disorders a name and no two assessments a session
    id. *)
Theorem reachable_keys_unique db :
  reachable db ->
  NoDup (map Disorder.id (disorders db)) /\
  NoDup (map Remedy.id (remedies db)) /\
  NoDup (map Assessment.id (assessments db)) /\
  NoDup (map Question.id (questions db)) /\
  NoDup (map Disorder.name (disorders db)) /\
  NoDup (map Assessment.session_id (assessments db)).
Proof.
  intros Hdb. destruct (reachable_integrity db Hdb). repeat split; assumption.
Qed.

Lemma reachable_keys_unique_witness :
  NoDup (map Disorder.name (disorders (serve (PostDisorder depression) seeded_store))) /\
  NoDup (map Remedy.id (remedies (serve (DeleteDisorder 2) seeded_store))).
Proof.
  split.
  - apply (reachable_keys_unique (serve (PostDisorder depression) seeded_store)).
    do 2 apply reachable_serve. apply reachable_empty.
  - apply (reachable_keys_unique (serve (DeleteDisorder 2) seeded_store)).
    do 2 apply reachable_serve. apply reachable_empty.
Defined.

Lemma serve_questions req db :
  req <> PostApiSeedData -> questions (serve req db) = questions db.
Proof.
  intros Hreq. destruct req; try congruence; unfold_handlers;
    handler_cases; cbn [snd]; written_rows; simpl; congruence.
Qed.

Lemma seed_initial_data_questions_active db :
  (forall q, In q (questions db) -> Question.is_active q = 1) ->
  forall q, In q (questions (snd (Api.seed_initial_data db))) -> Question.is_active q = 1.
Proof.
  intros Hdb. unfold Api.seed_initial_data; cbv zeta.
  destruct (_ >? 0); [exact Hdb|].
  destruct (add_disorder "Depression" _ _ db) as [[d0 db0]|] eqn:E0; [|exact Hdb].
  destruct (add_disorder "Anxiety Disorder" _ _ db0) as [[d1 db1]|] eqn:E1; [|exact Hdb].
  destruct (add_disorder "Bipolar Disorder" _ _ db1) as [[d2 db2]|] eqn:E2; [|exact Hdb].
  cbn [snd]. written_rows.
  apply (fold_left_preserves
           (fun a => forall q, In q (questions a) -> Question.is_active q = 1)).
  { intros a [[[text category] weight] order_index] _ Ha q Hq. simpl in Hq.
    apply in_app_or in Hq as [Hq|[<-|[]]]; [auto|reflexivity]. }
  apply (fold_left_preserves
           (fun a => forall q, In q (questions a) -> Question.is_active q = 1)).
  { intros a [[[disorder_id title] description] category] _ Ha. exact Ha. }
  intros q Hq. apply Hdb. congruence.
Qed.

Lemma reachable_questions_active db :
  reachable db -> forall q, In q (questions db) -> Question.is_active q = 1.
Proof.
  induction 1 as [|req db _ IH]; [intros q []|].
  destruct req; try (rewrite serve_questions by discriminate; exact IH).
  apply seed_initial_data_questions_active, IH.
Qed.

(** X5. Only the seeding writes questions and it writes them active, so in
    every reachable store each question is active and GET /api/questions
    returns all of them: the filter on [is_active] drops none. *)
Theorem get_questions_returns_all db :
  reachable db ->
  (forall q, In q (questions db) -> Question.is_active q = 1) /\
  exists rows,
    Api.get_questions db = (Ok (map Api.question_response rows), db) /\
    Permutation rows (questions db).
Proof.
  intros Hdb. pose proof (reachable_questions_active db Hdb) as Hactive.
  split; [exact Hactive|].
  exists (QuestionSort.sort (filter (fun q => Question.is_active q =? 1) (questions db))).
  split; [reflexivity|].
  assert (filter (fun q => Question.is_active q =? 1) (questions db) = questions db) as ->.
  { induction (questions db) as [|q qs IH]; simpl; [reflexivity|].
    rewrite (proj2 (Z.eqb_eq _ _) (Hactive q (or_introl eq_refl))).
    f_equal. apply IH. intros q' Hq'. apply Hactive. right. exact Hq'. }
  symmetry. apply QuestionSort.Permuted_sort.
Qed.

Lemma get_questions_returns_all_witness :
  exists rows,
    Api.get_questions seeded_store = (Ok (map Api.question_response rows), seeded_store) /\
    Permutation rows (questions seeded_store).
Proof.
  apply (get_questions_returns_all seeded_store).
  apply reachable_serve, reachable_empty.
Defined.

(** ** Updating a row *)










(** ** Creating rows *)



Example create_assessment_outcome_examples :
  Simple.create_assessment
    (Simple.AssessmentSchema.mk "session789" "yes,no,yes" "medium" (2 ^ 63) 1)
    one_assessment_store
  = (InternalServerError, one_assessment_store) /\
  fst (Simple.create_assessment
         (Simple.AssessmentSchema.mk "session789" "yes,no,yes" "medium"
            (2 ^ 63 - 1) (2 ^ 70))
         one_assessment_store)
  = Ok "Assessment added successfully".
Proof. split; reflexivity. Qed.



(** ** Deleting rows *)

(** X10. In a store that satisfies the schema constraints DELETE
    /disorder/{id} on a stored disorder removes that disorder and the remedies
    that reference it and nothing else: every other disorder, every remedy of
    another disorder, every assessment and every question is kept. *)
Theorem delete_disorder_keeps_the_rest d db :
  integrity db -> In d (disorders db) ->
  exists db',
    Simple.delete_disorder (Disorder.id d) db = (Ok "Disorder deleted successfully", db') /\
    (forall d', In d' (disorders db') <-> In d' (disorders db) /\ d' <> d) /\
    (forall r, In r (remedies db') <->
               In r (remedies db) /\ Remedy.disorder_id r <> Disorder.id d) /\
    assessments db' = assessments db /\
    questions db' = questions db.
Proof.
  intros [Hids Hrids _ _ _ _] Hd. exists (delete_disorder_row d db).
  unfold Simple.delete_disorder. rewrite (find_id_stored Disorder.id) by assumption.
  split; [reflexivity|]. repeat apply conj; try reflexivity.
  - intros d'. simpl. rewrite filter_In, negb_true_iff, Z.eqb_neq. split.
    + intros [Hd' Hne]. split; [exact Hd'|]. congruence.
    + intros [Hd' Hne]. split; [exact Hd'|]. intros E. apply Hne.
      apply (same_key_same_row Disorder.id (disorders db)); assumption.
  - intros r. split; [apply delete_disorder_row_remaining|].
    intros [Hr Hne]. simpl. apply filter_In. split; [exact Hr|].
    apply negb_true_iff. destruct (existsb _ _) eqn:E; [|reflexivity].
    apply existsb_exists in E as (r' & Hr' & E). apply Z.eqb_eq in E.
    apply filter_In in Hr' as [Hr' Hd']. apply Z.eqb_eq in Hd'.
    rewrite (same_key_same_row Remedy.id (remedies db) r r') in Hne by assumption.
    contradiction.
Qed.

Lemma delete_disorder_keeps_the_rest_witness :
  exists db',
    Simple.delete_disorder 2 seeded_store = (Ok "Disorder deleted successfully", db') /\
    map Disorder.id (disorders db') = [1; 3] /\
    map Remedy.disorder_id (remedies db') = [1; 1; 1; 3; 3; 3].
Proof.
  destruct (delete_disorder_keeps_the_rest
              (Disorder.mk 2 "Anxiety Disorder"
                 "Excessive worry, fear, or anxiety that interferes with daily activities and is difficult to control."
                 (Some "Excessive worry, restlessness, fatigue, difficulty concentrating, irritability, muscle tension, sleep problems"))
              seeded_store) as (db' & Hdelete & _).
  - apply reachable_integrity, reachable_serve, reachable_empty.
  - vm_compute. tauto.
  - exists db'. split; [exact Hdelete|].
    vm_compute in Hdelete. injection Hdelete as <-. split; reflexivity.
Defined.

(** ** Seeding *)

Lemma fold_add_remedy (data : list (Z * string * string * string)) (db : Store) :
  let db' :=
    fold_left (fun db '(disorder_id, title, description, category) =>
                 add_remedy disorder_id title description (Some category) db) data db in
  disorders db' = disorders db /\ assessments db' = assessments db /\
  questions db' = questions db /\
  map Remedy.disorder_id (remedies db')
    = (map Remedy.disorder_id (remedies db)
       ++ map (fun '(disorder_id, _, _, _) => disorder_id) data)%list.
Proof.
  cbv zeta. revert db.
  induction data as [|[[[disorder_id title] description] category] data IH];
    intros db; simpl.
  - rewrite app_nil_r. auto.
  - destruct (IH (add_remedy disorder_id title description (Some category) db))
      as (Hd & Ha & Hq & Hr).
    rewrite Hd, Ha, Hq, Hr. simpl. rewrite map_app, <- app_assoc. auto.
Qed.

Lemma fold_add_question (data : list (string * string * Z * Z)) (db : Store) :
  let db' :=
    fold_left (fun db '(text, category, weight, order_index) =>
                 add_question text (Some category) weight order_index db) data db in
  disorders db' = disorders db /\ remedies db' = remedies db /\
  assessments db' = assessments db /\
  map Question.order_index (questions db')
    = (map Question.order_index (questions db)
       ++ map (fun '(_, _, _, order_index) => order_index) data)%list.
Proof.
  cbv zeta. revert db.
  induction data as [|[[[text category] weight] order_index] data IH];
    intros db; simpl.
  - rewrite app_nil_r. auto.
  - destruct (IH (add_question text (Some category) weight order_index db))
      as (Hd & Hr & Ha & Hq).
    rewrite Hd, Hr, Ha, Hq. simpl. rewrite map_app, <- app_assoc. auto.
Qed.

(** X12. POST /api/seed-data looks at the disorders only.  On a store that
    holds a disorder it writes nothing and says the data is there.  On a store
    without disorders it adds the three disorders under the ids 1, 2, 3, three
    remedies for each, and the five questions in their order, after whatever
    remedies and questions the store holds already; a second seeding right
    after any first one writes nothing. *)
Theorem seed_initial_data_outcome db :
  (disorders db <> [] ->
   Api.seed_initial_data db = (Ok (Api.SeedReply.mk "Data already seeded" None), db)) /\
  (disorders db = [] ->
   exists db',
     Api.seed_initial_data db
       = (Ok (Api.SeedReply.mk "Database seeded successfully" (Some 3)), db') /\
     map (fun d => (Disorder.id d, Disorder.name d)) (disorders db')
       = [(1, "Depression"); (2, "Anxiety Disorder"); (3, "Bipolar Disorder")] /\
     map Remedy.disorder_id (remedies db')
       = (map Remedy.disorder_id (remedies db) ++ [1; 1; 1; 2; 2; 2; 3; 3; 3])%list /\
     map Question.order_index (questions db')
       = (map Question.order_index (questions db) ++ [1; 2; 3; 4; 5])%list /\
     assessments db' = assessments db) /\
  Api.seed_initial_data (snd (Api.seed_initial_data db))
    = (Ok (Api.SeedReply.mk "Data already seeded" None), snd (Api.seed_initial_data db)).
Proof.
  assert (forall db0, disorders db0 <> [] ->
            Api.seed_initial_data db0
            = (Ok (Api.SeedReply.mk "Data already seeded" None), db0)) as Hfull.
  { intros db0 H. unfold Api.seed_initial_data; cbv zeta.
    destruct (disorders db0); [contradiction|reflexivity]. }
  assert (disorders db = [] ->
          exists db',
            Api.seed_initial_data db
              = (Ok (Api.SeedReply.mk "Database seeded successfully" (Some 3)), db') /\
            map (fun d => (Disorder.id d, Disorder.name d)) (disorders db')
              = [(1, "Depression"); (2, "Anxiety Disorder"); (3, "Bipolar Disorder")] /\
            map Remedy.disorder_id (remedies db')
              = (map Remedy.disorder_id (remedies db) ++ [1; 1; 1; 2; 2; 2; 3; 3; 3])%list /\
            map Question.order_index (questions db')
              = (map Question.order_index (questions db) ++ [1; 2; 3; 4; 5])%list /\
            assessments db' = assessments db) as Hempty.
  { intros Hempty. unfold Api.seed_initial_data, add_disorder; cbv zeta. rewrite Hempty.
    cbn -[fold_left Api.remedies_data Api.questions_data].
    eexists. split; [reflexivity|].
    match goal with
    | |- context [fold_left ?f Api.questions_data (fold_left ?g ?data ?db2)] =>
        destruct (fold_add_question Api.questions_data (fold_left g data db2))
          as (Hd & Hr & Ha & Hq);
        destruct (fold_add_remedy data db2) as (Hd' & Ha' & Hq' & Hr')
    end.
    cbv zeta in Hd, Hr, Ha, Hq, Hd', Ha', Hq', Hr'.
    rewrite Hd, Hr, Ha, Hq, Hd', Ha', Hq', Hr'. repeat split. }
  split; [apply Hfull|]. split; [exact Hempty|].
  apply Hfull. destruct (disorders db) as [|d ds] eqn:E.
  - destruct (Hempty eq_refl) as (db' & -> & Hd & _). simpl.
    intros H. rewrite H in Hd. discriminate.
  - rewrite Hfull by (rewrite E; discriminate). simpl. rewrite E. discriminate.
Qed.

(** ** Listings *)

Lemma list_sum_map_add {A : Type} (f g : A -> nat) (l : list A) :
  list_sum (map (fun x => f x + g x)%nat l)
  = (list_sum (map f l) + list_sum (map g l))%nat.
Proof. induction l as [|x l IH]; simpl; [reflexivity|]. rewrite IH. lia. Qed.

(** A key of a list without repetition is counted once. *)
Lemma list_sum_indicator (ids : list Z) (k : Z) :
  NoDup ids -> In k ids ->
  list_sum (map (fun id => if k =? id then 1%nat else 0%nat) ids) = 1%nat.
Proof.
  induction ids as [|id ids IH]; simpl; intros Hnd Hin; [tauto|].
  inversion Hnd as [|? ? Hid Hids]; subst.
  destruct (Z.eqb_spec k id) as [->|Hne].
  - f_equal. clear IH Hin Hnd Hids. induction ids as [|id' ids IH]; [reflexivity|].
    simpl in *. destruct (Z.eqb_spec id id'); [intuition congruence|].
    apply IH. tauto.
  - apply IH; [exact Hids|]. destruct Hin; [congruence|assumption].
Qed.

(** Remedies that reference the keys [ids] are split by them. *)
Lemma remedies_split_by_disorder (ids : list Z) (rs : list Remedy.t) :
  NoDup ids -> (forall r, In r rs -> In (Remedy.disorder_id r) ids) ->
  list_sum
    (map (fun id => List.length (filter (fun r => Remedy.disorder_id r =? id) rs)) ids)
  = List.length rs.
Proof.
  intros Hnd. induction rs as [|r rs IH]; intros Hrefs.
  - clear. induction ids as [|id ids IHids]; [reflexivity|exact IHids].
  - rewrite (map_ext _
               (fun id => Nat.add (if Remedy.disorder_id r =? id then 1%nat else 0%nat)
                            (List.length
                               (filter (fun r0 => Remedy.disorder_id r0 =? id) rs)))).
    + rewrite list_sum_map_add, list_sum_indicator, IH; simpl; auto.
      * intros r' Hr'. apply Hrefs. right. exact Hr'.
      * apply Hrefs. left. reflexivity.
    + intros id. simpl. destruct (Remedy.disorder_id r =? id); reflexivity.
Qed.

(** X13. In a reachable store GET /api/disorders returns one entry per
    disorder, in the order of the table, and the remedy titles listed under
    the entries are as many as the remedies stored: each remedy is listed
    under its disorder and under no other. *)
Theorem get_disorders_lists_every_remedy db :
  reachable db ->
  exists body,
    Api.get_disorders db = (Ok body, db) /\
    map Api.DisorderResponse.id body = map Disorder.id (disorders db) /\
    List.length (List.concat (map Api.DisorderResponse.remedies body))
      = List.length (remedies db) /\
    (forall r, In r (remedies db) ->
       exists entry, In entry body /\
                     Api.DisorderResponse.id entry = Remedy.disorder_id r /\
                     In (Remedy.title r) (Api.DisorderResponse.remedies entry)).
Proof.
  intros Hdb. pose proof (reachable_references db Hdb) as Hrefs.
  pose proof (reachable_integrity db Hdb) as [Hids _ _ _ _ _].
  eexists. split; [reflexivity|]. repeat apply conj.
  - rewrite map_map. reflexivity.
  - rewrite length_concat, !map_map. unfold Api.disorder_response; cbv zeta.
    cbn [Api.DisorderResponse.remedies].
    rewrite <- (remedies_split_by_disorder (map Disorder.id (disorders db)) (remedies db))
      by assumption.
    rewrite map_map. f_equal. apply map_ext. intros d. apply length_map.
  - intros r Hr. destruct (proj1 (in_map_iff _ _ _) (Hrefs r Hr)) as (d & E & Hd).
    exists (Api.disorder_response d db).
    split; [apply (in_map (fun disorder => Api.disorder_response disorder db)), Hd|].
    split; [exact E|]. simpl. apply in_map. apply filter_In. split; [exact Hr|].
    apply Z.eqb_eq. congruence.
Qed.

Lemma get_disorders_lists_every_remedy_witness :
  exists body,
    Api.get_disorders (serve (DeleteDisorder 1) seeded_store)
      = (Ok body, serve (DeleteDisorder 1) seeded_store) /\
    map Api.DisorderResponse.id body = [2; 3] /\
    List.length (List.concat (map Api.DisorderResponse.remedies body)) = 6%nat.
Proof.
  destruct (get_disorders_lists_every_remedy (serve (DeleteDisorder 1) seeded_store))
    as (body & Hget & Hids & Hcount & _).
  - do 2 apply reachable_serve. apply reachable_empty.
  - exists body. split; [exact Hget|]. split.
    + rewrite Hids. reflexivity.
    + rewrite Hcount. reflexivity.
Defined.

(** X14. In a store that satisfies the schema constraints every entry of a
    listing is what the lookup by its id returns: for GET /disorder and GET
    /disorder/{id}, GET /assessment and GET /assessment/{id}, GET
    /api/disorders and GET /api/disorders/{id}, GET /api/remedies and GET
    /api/remedies/{id}. *)
Theorem listings_agree_with_lookups db :
  integrity db ->
  (exists body, Simple.get_disorders db = (Ok body, db) /\
     forall d, In d body -> Simple.get_disorder (Disorder.id d) db = (Ok d, db)) /\
  (exists body, Simple.get_assessments db = (Ok body, db) /\
     forall a, In a body -> Simple.get_assessment (Assessment.id a) db = (Ok a, db)) /\
  (exists body, Api.get_disorders db = (Ok body, db) /\
     forall entry, In entry body ->
       Api.get_disorder (Api.DisorderResponse.id entry) db = (Ok entry, db)) /\
  (exists body, Api.get_remedies db = (Ok body, db) /\
     forall entry, In entry body ->
       Api.get_remedy (Api.RemedyResponse.id entry) db = (Ok entry, db)).
Proof.
  intros [Hd Hr Ha _ _ _]. repeat apply conj; eexists; (split; [reflexivity|]).
  - intros d Hin. unfold Simple.get_disorder.
    rewrite (find_id_stored Disorder.id) by assumption. reflexivity.
  - intros a Hin. unfold Simple.get_assessment.
    rewrite (find_id_stored Assessment.id) by assumption. reflexivity.
  - intros entry Hin. apply in_map_iff in Hin as (d & <- & Hin).
    unfold Api.get_disorder. cbn [Api.disorder_response Api.DisorderResponse.id].
    rewrite (find_id_stored Disorder.id) by assumption. reflexivity.
  - intros entry Hin. apply in_map_iff in Hin as (r & <- & Hin).
    unfold Api.get_remedy. cbn [Api.remedy_response Api.RemedyResponse.id].
    rewrite (find_id_stored Remedy.id) by assumption. reflexivity.
Qed.

Lemma listings_agree_with_lookups_witness :
  exists body, Api.get_remedies seeded_store = (Ok body, seeded_store) /\
    forall entry, In entry body ->
      Api.get_remedy (Api.RemedyResponse.id entry) seeded_store = (Ok entry, seeded_store).
Proof.
  apply (listings_agree_with_lookups seeded_store).
  apply reachable_integrity, reachable_serve, reachable_empty.
Defined.

(** ** What a submission stores *)

Lemma severity_score_count_yes (answers : list string) :
  ResultData.severity_score (calculate_assessment_result answers)
  = Z.of_nat (count_yes answers).
Proof.
  rewrite calculate_assessment_result_cases; cbv zeta.
  destruct (_ >=? 4); [|destruct (_ >=? 2)]; reflexivity.
Qed.

(** X15. When POST /api/assessments answers 200 the submission had at least
    5 answers, the response carries the generated token and the outcome of
    the scoring function, and the one row appended to the assessments holds
    the token, the answers, the narrative and the score of the response and
    no suggested disorder; the tier and the remedies are not stored, and no
    other table changes. *)
Theorem create_assessment_stores_what_it_returns uuid4 assessment db response db' :
  Api.create_assessment uuid4 assessment db = (Ok response, db') ->
  (5 <= List.length (Api.AssessmentRequest.answers assessment))%nat /\
  response =
    Api.AssessmentResponse.mk uuid4
      (ResultData.result
         (calculate_assessment_result (Api.AssessmentRequest.answers assessment)))
      (ResultData.remedies
         (calculate_assessment_result (Api.AssessmentRequest.answers assessment)))
      (ResultData.severity
         (calculate_assessment_result (Api.AssessmentRequest.answers assessment)))
      (Z.of_nat (count_yes (Api.AssessmentRequest.answers assessment))) /\
  assessments db' =
    (assessments db ++
     [Assessment.mk (next_id (map Assessment.id (assessments db)))
        (Api.AssessmentResponse.session_id response)
        (JsonList (Api.AssessmentRequest.answers assessment))
        (Api.AssessmentResponse.result response)
        (Api.AssessmentResponse.severity_score response)
        None])%list /\
  disorders db' = disorders db /\ remedies db' = remedies db /\
  questions db' = questions db.
Proof.
  unfold Api.create_assessment, add_assessment; cbv zeta.
  destruct (Api.AssessmentRequest.answers assessment) as [|answer answers] eqn:E;
    [discriminate|].
  destruct (Z.ltb_spec (Z.of_nat (List.length (answer :: answers))) 5) as [|Hlen];
    [discriminate|].
  destruct (existsb _ (assessments db)); [discriminate|].
  intros H. injection H as <- <-.
  rewrite <- (severity_score_count_yes (answer :: answers)).
  split; [lia|]. repeat split.
Qed.

Lemma create_assessment_stores_what_it_returns_witness :
  (5 <= List.length ["yes"; "no"; "Yes"; "unsure"; "no"])%nat /\
  disorders
    (snd (Api.create_assessment "0f8fad5b-d9cb-469f-a165-70867728950e"
            (Api.AssessmentRequest.mk ["yes"; "no"; "Yes"; "unsure"; "no"]) seeded_store))
  = disorders seeded_store.
Proof.
  destruct (create_assessment_stores_what_it_returns
              "0f8fad5b-d9cb-469f-a165-70867728950e"
              (Api.AssessmentRequest.mk ["yes"; "no"; "Yes"; "unsure"; "no"]) seeded_store
              (Api.AssessmentResponse.mk "0f8fad5b-d9cb-469f-a165-70867728950e"
                 medium_narrative medium_remedies "medium" 2)
              (snd (Api.create_assessment "0f8fad5b-d9cb-469f-a165-70867728950e"
                      (Api.AssessmentRequest.mk ["yes"; "no"; "Yes"; "unsure"; "no"])
                      seeded_store)))
    as (Hlen & _ & _ & Hdisorders & _).
  - reflexivity.
  - split; [exact Hlen|exact Hdisorders].
Defined.

(** ** Searching disorders by name *)

Lemma like_chars_percent (pattern text : list N) :
  like_chars (37%N :: pattern) text =
  like_chars pattern text ||
  match text with
  | [] => false
  | _ :: text' => like_chars (37%N :: pattern) text'
  end.
Proof. destruct text; reflexivity. Qed.

Lemma like_chars_other (c : N) (pattern text : list N) :
  c <> 37%N ->
  like_chars (c :: pattern) text =
  match text with
  | [] => false
  | d :: text' => ((c =? 95)%N || like_char_eq c d) && like_chars pattern text'
  end.
Proof.
  intros Hc. apply N.eqb_neq in Hc. simpl. rewrite Hc. reflexivity.
Qed.

(** A pattern of percent signs holds of every text. *)
Lemma like_chars_percent_end (text : list N) : like_chars [37%N] text = true.
Proof.
  induction text as [|d text IH]; rewrite like_chars_percent; [reflexivity|].
  rewrite IH. apply orb_true_r.
Qed.

Lemma like_chars_percent_skip (pattern text : list N) :
  like_chars pattern text = true -> like_chars (37%N :: pattern) text = true.
Proof. intros H. rewrite like_chars_percent, H. reflexivity. Qed.

Lemma like_char_eq_no_upper (c d : N) :
  no_upper c -> no_upper d -> like_char_eq c d = (c =? d)%N.
Proof.
  unfold no_upper, like_char_eq; cbv zeta. intros Hc Hd.
  destruct (N.eqb_spec c d) as [E|E]; [reflexivity|]. simpl.
  destruct ((65 <=? c) && (c <=? 90))%N eqn:Uc.
  { apply andb_true_iff in Uc as [U1 U2]. apply N.leb_le in U1, U2. lia. }
  destruct ((65 <=? d) && (d <=? 90))%N eqn:Ud.
  { apply andb_true_iff in Ud as [U1 U2]. apply N.leb_le in U1, U2. lia. }
  apply N.eqb_neq in E. rewrite E. apply andb_false_r.
Qed.

(** A pattern without wildcards before a last percent sign is the start of
    the text. *)
Lemma like_chars_starts_with (part text : list N) :
  Forall (fun c => c <> 37%N /\ c <> 95%N /\ no_upper c) part ->
  Forall no_upper text ->
  like_chars (part ++ [37%N]) text = starts_with part text.
Proof.
  intros Hpart. revert text.
  induction Hpart as [|c part (H37 & H95 & Hc) _ IH]; intros text Htext.
  - apply like_chars_percent_end.
  - simpl app. rewrite like_chars_other by exact H37.
    destruct Htext as [|d text Hd Htext]; [reflexivity|].
    apply N.eqb_neq in H95. rewrite H95, like_char_eq_no_upper by assumption.
    simpl. rewrite IH by assumption. reflexivity.
Qed.

(** Between two percent signs it occurs anywhere in the text. *)
Lemma like_chars_contains (part text : list N) :
  Forall (fun c => c <> 37%N /\ c <> 95%N /\ no_upper c) part ->
  Forall no_upper text ->
  like_chars (37%N :: part ++ [37%N]) text = contains part text.
Proof.
  intros Hpart Htext. induction Htext as [|d text Hd Htext IH];
    rewrite like_chars_percent, like_chars_starts_with
      by (try assumption; constructor; assumption).
  - destruct part; reflexivity.
  - rewrite IH. reflexivity.
Qed.

Lemma starts_with_iff (part whole : list N) :
  starts_with part whole = true <-> exists after, whole = (part ++ after)%list.
Proof.
  revert whole. induction part as [|c part IH]; intros whole; simpl.
  - split; eauto.
  - destruct whole as [|d whole].
    + split; [discriminate|]. intros (after & E). discriminate.
    + rewrite andb_true_iff, N.eqb_eq, IH. split.
      * intros [-> (after & ->)]. eauto.
      * intros (after & E). injection E as -> ->. eauto.
Qed.

(** [contains] is occurrence as a run of consecutive characters. *)
Lemma contains_iff (part whole : list N) :
  contains part whole = true <->
  exists before after, whole = (before ++ part ++ after)%list.
Proof.
  induction whole as [|d whole IH]; simpl; rewrite orb_true_iff, starts_with_iff.
  - split.
    + intros [(after & E)|H]; [|discriminate]. exists [], after. exact E.
    + intros (before & after & E). left. destruct before; [|discriminate]. eauto.
  - rewrite IH. split.
    + intros [(after & E)|(before & after & E)].
      * exists [], after. exact E.
      * exists (d :: before), after. simpl. rewrite E. reflexivity.
    + intros (before & after & E). destruct before as [|d' before].
      * left. eauto.
      * right. simpl in E. injection E as _ E. eauto.
Qed.

(** *** The characters of a lowered C string *)

Lemma utf8_replace_ge (c : N) : (128 <= utf8_replace c)%N.
Proof.
  unfold utf8_replace. destruct (N.ltb_spec c 128); simpl; [lia|].
  destruct (_ || _); lia.
Qed.

(** A character below 128 was read from a byte of that value. *)
Lemma utf8_chars_ascii (s : string) (pending : option N) (c : N) :
  In c (utf8_chars pending s) -> (c < 128)%N ->
  exists b, In b (list_ascii_of_string s) /\ N_of_ascii b = c.
Proof.
  revert pending. induction s as [|b s IH]; intros pending Hin Hc.
  - destruct pending as [c0|]; simpl in Hin; [|tauto].
    destruct Hin as [<-|[]]. pose proof (utf8_replace_ge c0). lia.
  - assert (forall p, In c (utf8_chars p s) ->
                      exists b0, In b0 (list_ascii_of_string (String b s)) /\
                                 N_of_ascii b0 = c) as Hrest.
    { intros p Hp. destruct (IH p Hp Hc) as (b0 & Hb0 & E). exists b0. simpl. auto. }
    assert (In c (if (N_of_ascii b <? 192)%N then N_of_ascii b :: utf8_chars None s
                  else utf8_chars (Some (utf8_lead (N_of_ascii b))) s) ->
            exists b0, In b0 (list_ascii_of_string (String b s)) /\ N_of_ascii b0 = c)
      as Hstart.
    { destruct (N_of_ascii b <? 192)%N; [|apply Hrest].
      intros [E|Hp]; [|apply (Hrest _ Hp)]. exists b. simpl. auto. }
    simpl in Hin. destruct pending as [c0|]; [|apply Hstart, Hin].
    destruct (N.land (N_of_ascii b) 192 =? 128)%N; [apply (Hrest _ Hin)|].
    destruct Hin as [<-|Hin]; [|apply Hstart, Hin].
    pose proof (utf8_replace_ge c0). lia.
Qed.

Lemma utf8_chars_percent_end (s : string) (pending : option N) :
  utf8_chars pending (s ++ "%") = (utf8_chars pending s ++ [37%N])%list.
Proof.
  revert pending. induction s as [|b s IH]; intros pending.
  - destruct pending; reflexivity.
  - simpl. destruct pending as [c|].
    + destruct (N.land (N_of_ascii b) 192 =? 128)%N; [apply IH|].
      destruct (N_of_ascii b <? 192)%N; simpl; rewrite IH; reflexivity.
    + destruct (N_of_ascii b <? 192)%N; simpl; rewrite IH; reflexivity.
Qed.

Lemma utf8_chars_pending (s : string) (c : N) : utf8_chars (Some c) s <> [].
Proof.
  revert c. induction s as [|b s IH]; intros c; simpl; [discriminate|].
  destruct (N.land (N_of_ascii b) 192 =? 128)%N; [apply IH|discriminate].
Qed.

Lemma utf8_chars_nonempty (b : ascii) (s : string) : utf8_chars None (String b s) <> [].
Proof.
  simpl. destruct (N_of_ascii b <? 192)%N; [discriminate|apply utf8_chars_pending].
Qed.

Lemma c_string_bytes (s : string) (b : ascii) :
  In b (list_ascii_of_string (c_string s)) -> In b (list_ascii_of_string s).
Proof.
  induction s as [|b0 s IH]; simpl; [tauto|].
  destruct (b0 =? zero)%char; simpl; tauto.
Qed.

Lemma lower_bytes (s : string) (b : ascii) :
  In b (list_ascii_of_string (lower s)) -> exists b0, b = lower_char b0.
Proof.
  induction s as [|b0 s IH]; simpl; [tauto|]. intros [<-|H]; eauto.
Qed.

Lemma plain_bytes (s : string) (b : ascii) :
  plain s = true -> In b (list_ascii_of_string s) ->
  b <> "%"%char /\ b <> "_"%char /\ b <> zero.
Proof.
  induction s as [|b0 s IH]; simpl; [tauto|].
  rewrite andb_true_iff, negb_true_iff, !orb_false_iff, !Ascii.eqb_neq.
  intros [[[H1 H2] H3] Hs] [<-|Hb]; auto.
Qed.

Lemma plain_c_string (s : string) : plain s = true -> c_string s = s.
Proof.
  induction s as [|b s IH]; simpl; [reflexivity|].
  rewrite andb_true_iff, negb_true_iff, !orb_false_iff.
  intros [[_ ->] Hs]. rewrite IH by exact Hs. reflexivity.
Qed.

Lemma plain_lower_char (b : ascii) :
  ((lower_char b =? "%") || (lower_char b =? "_") || (lower_char b =? zero))%char
  = ((b =? "%") || (b =? "_") || (b =? zero))%char.
Proof. destruct b as [[] [] [] [] [] [] [] []]; reflexivity. Qed.

Lemma plain_lower (s : string) : plain (lower s) = plain s.
Proof.
  induction s as [|b s IH]; simpl; [reflexivity|].
  rewrite plain_lower_char, IH. reflexivity.
Qed.

Lemma lower_append (s1 s2 : string) : lower (s1 ++ s2) = lower s1 ++ lower s2.
Proof. induction s1 as [|c s1 IH]; simpl; [reflexivity|]. rewrite IH. reflexivity. Qed.

(** The store's [lower] leaves no upper-case ASCII letter to read. *)
Lemma sql_chars_lower_no_upper (s : string) : Forall no_upper (sql_chars (lower s)).
Proof.
  apply Forall_forall. intros c Hc Hupper. unfold sql_chars in Hc.
  destruct (utf8_chars_ascii _ _ _ Hc) as (b & Hb & E); [lia|].
  apply c_string_bytes, lower_bytes in Hb as (b0 & ->).
  rewrite N_of_lower_char in E. unfold is_upper in E; cbv zeta in E.
  destruct ((65 <=? N_of_ascii b0) && (N_of_ascii b0 <=? 90))%N eqn:U.
  - apply andb_true_iff in U as [U1 U2]. apply N.leb_le in U1, U2.
    destruct Hupper. lia.
  - subst c. destruct Hupper as [U1 U2]. apply N.leb_le in U1, U2.
    rewrite U1, U2 in U. discriminate.
Qed.

Lemma sql_chars_plain (s : string) :
  plain s = true ->
  Forall (fun c => c <> 37%N /\ c <> 95%N /\ no_upper c) (sql_chars (lower s)).
Proof.
  intros Hplain. pose proof (sql_chars_lower_no_upper s) as Hupper.
  rewrite Forall_forall in *. intros c Hc.
  assert (forall n, (n < 128)%N -> c = n ->
            exists b, In b (list_ascii_of_string (lower s)) /\ N_of_ascii b = n) as Hbyte.
  { intros n Hn ->. unfold sql_chars in Hc.
    destruct (utf8_chars_ascii _ _ _ Hc Hn) as (b & Hb & E).
    exists b. split; [apply c_string_bytes, Hb|exact E]. }
  rewrite <- plain_lower in Hplain.
  repeat split; [| |apply Hupper, Hc]; intros E.
  - destruct (Hbyte 37%N eq_refl E) as (b & Hb & Eb).
    destruct (plain_bytes _ _ Hplain Hb) as (H1 & _).
    apply H1, N_of_ascii_inj. rewrite Eb. reflexivity.
  - destruct (Hbyte 95%N eq_refl E) as (b & Hb & Eb).
    destruct (plain_bytes _ _ Hplain Hb) as (_ & H2 & _).
    apply H2, N_of_ascii_inj. rewrite Eb. reflexivity.
Qed.

Lemma c_string_percent_end (s : string) :
  plain s = true -> c_string (s ++ "%") = s ++ "%".
Proof.
  induction s as [|b s IH]; simpl; [reflexivity|].
  rewrite andb_true_iff, negb_true_iff, !orb_false_iff.
  intros [[_ ->] Hs]. rewrite IH by exact Hs. reflexivity.
Qed.

(** The characters of the pattern the search builds from a plain query. *)
Lemma sql_chars_pattern (name : string) :
  plain name = true ->
  sql_chars (lower ("%" ++ name ++ "%")) = (37%N :: sql_chars (lower name) ++ [37%N])%list.
Proof.
  intros Hplain. rewrite <- plain_lower in Hplain. unfold sql_chars.
  rewrite !lower_append. change (lower "%") with "%".
  rewrite (plain_c_string (lower name) Hplain).
  change ("%" ++ lower name ++ "%") with (String "%" (lower name ++ "%")).
  change (c_string (String "%" (lower name ++ "%")))
    with (String "%" (c_string (lower name ++ "%"))).
  rewrite (c_string_percent_end _ Hplain).
  change (utf8_chars None (String "%" (lower name ++ "%")))
    with (37%N :: utf8_chars None (lower name ++ "%")).
  rewrite utf8_chars_percent_end. reflexivity.
Qed.

(** The test of the search, for a plain query. *)
Lemma ilike_contains (name column : string) :
  plain name = true ->
  ilike column ("%" ++ name ++ "%")
  = contains (sql_chars (lower name)) (sql_chars (lower column)).
Proof.
  intros Hplain. unfold ilike, like. rewrite (sql_chars_pattern name Hplain).
  apply like_chars_contains; [apply sql_chars_plain, Hplain|].
  apply sql_chars_lower_no_upper.
Qed.

Lemma zero_lower_char (b : ascii) : (lower_char b =? zero)%char = (b =? zero)%char.
Proof. destruct b as [[] [] [] [] [] [] [] []]; reflexivity. Qed.

Lemma c_string_lower (s : string) : c_string (lower s) = lower (c_string s).
Proof.
  induction s as [|b s IH]; simpl; [reflexivity|]. rewrite zero_lower_char.
  destruct (b =? zero)%char; simpl; [reflexivity|]. rewrite IH. reflexivity.
Qed.

(** X16. For a query without the percent sign, the underscore and the zero
    byte, and within the pattern limit of the store, GET
    /api/disorders/search/{name} returns exactly the disorders in whose name,
    cut at its first zero byte and lowered, the characters of the lowered
    query occur one after the other; it returns them in the order of the
    table, answers 404 when there is none, and leaves the store as it was. *)
Theorem search_disorders_substring name db :
  plain name = true ->
  Z.of_nat (String.length ("%" ++ name ++ "%")) <= like_pattern_limit ->
  Api.search_disorders name db =
    (match filter (fun d => contains (sql_chars (lower name))
                              (sql_chars (lower (Disorder.name d))))
             (disorders db) with
     | [] => HTTPException 404 "No disorders found"
     | d :: ds =>
         Ok (map (fun disorder => Api.disorder_response disorder db) (d :: ds))
     end, db) /\
  (forall part whole,
     contains part whole = true <->
     exists before after, whole = (before ++ part ++ after)%list).
Proof.
  intros Hplain Hlength. split; [|apply contains_iff].
  unfold Api.search_disorders, Api.filter_ilike.
  destruct (disorders db) as [|d0 ds0]; [reflexivity|].
  destruct (Z.ltb_spec like_pattern_limit (Z.of_nat (String.length ("%" ++ name ++ "%"))))
    as [Hlong|_]; [lia|].
  rewrite (filter_ext _ _ (fun d => ilike_contains name (Disorder.name d) Hplain)).
  destruct (filter _ (d0 :: ds0)); reflexivity.
Qed.

Lemma search_disorders_substring_witness :
  exists body,
    Api.search_disorders "DISORDER" seeded_store = (Ok body, seeded_store) /\
    map Api.DisorderResponse.name body = ["Anxiety Disorder"; "Bipolar Disorder"].
Proof.
  destruct (search_disorders_substring "DISORDER" seeded_store) as [Hsearch _].
  - reflexivity.
  - vm_compute. discriminate.
  - rewrite Hsearch. vm_compute. eexists. split; reflexivity.
Defined.

(** X17. The query of the search is a pattern, not a literal: "%" returns
    every disorder of a table that has one, and "_" returns exactly the
    disorders whose name has a first byte other than zero, in the order of
    the table, though neither character need occur in a name; on a table
    without disorders every query answers 404. *)
Theorem search_disorders_wildcards db :
  (disorders db <> [] ->
   Api.search_disorders "%" db
   = (Ok (map (fun disorder => Api.disorder_response disorder db) (disorders db)), db)) /\
  Api.search_disorders "_" db =
    (match filter (fun d => match c_string (Disorder.name d) with
                            | EmptyString => false
                            | String _ _ => true
                            end) (disorders db) with
     | [] => HTTPException 404 "No disorders found"
     | d :: ds =>
         Ok (map (fun disorder => Api.disorder_response disorder db) (d :: ds))
     end, db) /\
  (disorders db = [] ->
   forall name,
     Api.search_disorders name db = (HTTPException 404 "No disorders found", db)).
Proof.
  repeat apply conj.
  - intros Hne. unfold Api.search_disorders, Api.filter_ilike.
    destruct (disorders db) as [|d0 ds0]; [contradiction|].
    change (like_pattern_limit <? Z.of_nat (String.length ("%" ++ "%" ++ "%")))
      with false. cbv iota.
    assert (filter (fun d => ilike (Disorder.name d) ("%" ++ "%" ++ "%")) (d0 :: ds0)
            = d0 :: ds0) as ->; [|reflexivity].
    clear Hne. induction (d0 :: ds0) as [|d ds IH]; [reflexivity|]. cbn [filter].
    assert (ilike (Disorder.name d) ("%" ++ "%" ++ "%") = true) as ->.
    { unfold ilike, like. change (sql_chars (lower ("%" ++ "%" ++ "%")))
        with [37%N; 37%N; 37%N].
      do 2 apply like_chars_percent_skip. apply like_chars_percent_end. }
    rewrite IH. reflexivity.
  - unfold Api.search_disorders, Api.filter_ilike.
    destruct (disorders db) as [|d0 ds0]; [reflexivity|].
    change (like_pattern_limit <? Z.of_nat (String.length ("%" ++ "_" ++ "%")))
      with false. cbv iota.
    rewrite (filter_ext (fun d => ilike (Disorder.name d) ("%" ++ "_" ++ "%"))
               (fun d => match c_string (Disorder.name d) with
                         | EmptyString => false
                         | String _ _ => true
                         end)).
    + destruct (filter _ (d0 :: ds0)); reflexivity.
    + intros d. unfold ilike, like.
      change (sql_chars (lower ("%" ++ "_" ++ "%"))) with [37%N; 95%N; 37%N].
      unfold sql_chars. rewrite c_string_lower.
      destruct (c_string (Disorder.name d)) as [|b s]; [reflexivity|].
      pose proof (utf8_chars_nonempty (lower_char b) (lower s)) as Hchars.
      change (lower (String b s)) with (String (lower_char b) (lower s)).
      destruct (utf8_chars None (String (lower_char b) (lower s))) as [|c cs];
        [contradiction|].
      rewrite like_chars_percent, like_chars_other by discriminate.
      rewrite like_chars_percent_end. reflexivity.
  - intros Hempty name. unfold Api.search_disorders, Api.filter_ilike.
    rewrite Hempty. reflexivity.
Qed.

(** X20. On a table that has a disorder, a query that makes the pattern
    longer than the store's LIKE accepts (50000 bytes with the two percent
    signs) ends as a server error; the store is as it was. *)
Theorem search_disorders_pattern_too_long name db :
  disorders db <> [] ->
  like_pattern_limit < Z.of_nat (String.length ("%" ++ name ++ "%")) ->
  Api.search_disorders name db = (InternalServerError, db).
Proof.
  intros Hne Hlong. unfold Api.search_disorders, Api.filter_ilike.
  destruct (disorders db) as [|d0 ds0]; [contradiction|].
  destruct (Z.ltb_spec like_pattern_limit (Z.of_nat (String.length ("%" ++ name ++ "%"))))
    as [_|Hshort]; [reflexivity|lia].
Qed.

Lemma search_disorders_pattern_too_long_witness :
  Api.search_disorders (string_of_list_ascii (repeat "a"%char (N.to_nat 49999))) seeded_store
  = (InternalServerError, seeded_store).
Proof.
  apply search_disorders_pattern_too_long.
  - discriminate.
  - vm_compute. reflexivity.
Defined.

(** ** Requests that cannot fail, and one that can *)


(** X19. POST /api/assessments with at least 5 answers ends as a server
    error, with nothing written, when the generated token is the session id
    of a stored assessment: the handler does not look the token up before
    the commit. *)
Theorem create_assessment_token_collision uuid4 assessment db :
  (5 <= List.length (Api.AssessmentRequest.answers assessment))%nat ->
  In uuid4 (map Assessment.session_id (assessments db)) ->
  Api.create_assessment uuid4 assessment db = (InternalServerError, db).
Proof.
  intros Hlen Hin. unfold Api.create_assessment, add_assessment; cbv zeta.
  destruct (Api.AssessmentRequest.answers assessment) as [|answer answers] eqn:E;
    [simpl in Hlen; lia|].
  destruct (Z.ltb_spec (Z.of_nat (List.length (answer :: answers))) 5) as [|_];
    [lia|].
  destruct (existsb _ (assessments db)) eqn:Eex; [reflexivity|].
  exfalso. revert Hin.
  apply (existsb_absent Assessment.session_id String.eqb); [apply String.eqb_eq|exact Eex].
Qed.

Lemma create_assessment_token_collision_witness :
  Api.create_assessment "session123"
    (Api.AssessmentRequest.mk ["yes"; "no"; "unsure"; "yes"; "no"]) one_assessment_store
  = (InternalServerError, one_assessment_store).
Proof.
  apply (create_assessment_token_collision "session123"
           (Api.AssessmentRequest.mk ["yes"; "no"; "unsure"; "yes"; "no"])
           one_assessment_store).
  - simpl. lia.
  - simpl. tauto.
Defined.
